(** * IP address repository of the metal-stack api-server

    A shallow embedding of [pkg/repository/ip.go] (the [ipRepository]:
    Get, Create, Update, Delete, List, AllocateSpecificIP, AllocateRandomIP,
    ConvertToProto) and of [pkg/service/ip/admin/ip-service.go] (the admin
    List handler), with theorems about the orchestration of the two
    backends: the IPAM service and the datastore.

    The Go code is effectful: every method talks to collaborators that are
    interfaces in the source (project and network lookup, the ipam client,
    the datastore, the uuid generator).  A method is embedded as a program
    in a small free monad over those calls ([prog]); [run] executes a
    program against any implementation of the collaborators and returns
    the result, the final state of the collaborators and the trace of the
    calls that were made, in order, each with its response. *)

From Stdlib Require Import String List ZArith Bool Lia.
Import ListNotations.
Local Open Scope string_scope.

Set Implicit Arguments.

(** ** Errors *)

(** The codes of connectrpc.com/connect. *)
Module connect.

Inductive Code : Set :=
  | CodeCanceled | CodeUnknown | CodeInvalidArgument | CodeDeadlineExceeded
  | CodeNotFound | CodeAlreadyExists | CodePermissionDenied
  | CodeResourceExhausted | CodeFailedPrecondition | CodeAborted
  | CodeOutOfRange | CodeUnimplemented | CodeInternal | CodeUnavailable
  | CodeDataLoss | CodeUnauthenticated.

Definition Code_eq_dec (a b : Code) : {a = b} + {a <> b}.
Proof. decide equality. Defined.

End connect.
Import connect.

(** Go error values, as far as this code builds and inspects them:
    - [fmt_Errorf format args] is [fmt.Errorf(format, args...)] without [%w];
    - [fmt_Errorf_w format err] is [fmt.Errorf("...: %w", err)], wrapping [err];
    - [generic_NotFound], [generic_Conflict] are the datastore's error kinds
      ([generic.NotFound(...)], [generic.Conflict(...)]);
    - [connect_NewError c err] is [connect.NewError(c, err)], a [*connect.Error]
      with code [c] wrapping [err]. *)
Inductive error : Set :=
| fmt_Errorf (format : string) (args : list string)
| fmt_Errorf_w (format : string) (err : error)
| generic_NotFound (format : string) (args : list string)
| generic_Conflict (format : string) (args : list string)
| connect_NewError (c : Code) (underlying : error).

(** [errors.As(err, &connectErr)] with [connectErr : *connect.Error]: the first
    connect error on the [Unwrap] chain of [err]; the result is its [Code()]. *)
Fixpoint errors_As_connect (err : error) : option Code :=
  match err with
  | fmt_Errorf _ _ => None
  | fmt_Errorf_w _ e => errors_As_connect e
  | generic_NotFound _ _ => None
  | generic_Conflict _ _ => None
  | connect_NewError c _ => Some c
  end.


(** The class under which a caller sees the error: the connect code, if the
    error carries one. *)
Definition has_code (c : Code) (err : error) : Prop :=
  errors_As_connect err = Some c.

(** ** Data model *)

(** Package metal.  [AddressFamily] and [IPType] are Go string types; their
    declarations are not among the sources, the constants below are the two
    named values of each, and the Go zero value of either type is the empty
    string. *)
Module metal.

Definition AddressFamily := string.
Definition IPv4AddressFamily : AddressFamily := "IPv4".
Definition IPv6AddressFamily : AddressFamily := "IPv6".
Definition AddressFamily_zero : AddressFamily := "".

Definition IPType := string.
Definition Ephemeral : IPType := "ephemeral".
Definition Static : IPType := "static".
Definition IPType_zero : IPType := "".

(** A prefix, as its [String()]: the CIDR notation. *)
Definition Prefix := string.

End metal.
Import metal.

(** [time.Time], as the two readings the code takes of it: [t.Unix()] and
    [t.Nanosecond()].  The Go zero value is January 1 of year 1, UTC. *)
Module time.
Record Time : Set := { Unix : Z; Nanosecond : Z }.
Definition zero : Time := {| Unix := -62135596800; Nanosecond := 0 |}.
End time.

(** [metal.IP], the address record. *)
Module IP.
Record t : Set := mk {
    AllocationUUID : string;
    IPAddress : string;
    ParentPrefixCidr : string;
    Name : string;
    Description : string;
    NetworkID : string;
    ProjectID : string;
    Type_ : IPType;
    Tags : list string;
    Created : time.Time;
    Changed : time.Time
  }.

Definition set_Description (d : string) (ip : t) : t :=
    mk (AllocationUUID ip) (IPAddress ip) (ParentPrefixCidr ip) (Name ip) d
       (NetworkID ip) (ProjectID ip) (Type_ ip) (Tags ip) (Created ip) (Changed ip).
Definition set_Name (n : string) (ip : t) : t :=
    mk (AllocationUUID ip) (IPAddress ip) (ParentPrefixCidr ip) n (Description ip)
       (NetworkID ip) (ProjectID ip) (Type_ ip) (Tags ip) (Created ip) (Changed ip).
Definition set_Type (ty : IPType) (ip : t) : t :=
    mk (AllocationUUID ip) (IPAddress ip) (ParentPrefixCidr ip) (Name ip) (Description ip)
       (NetworkID ip) (ProjectID ip) ty (Tags ip) (Created ip) (Changed ip).
Definition set_Tags (tags : list string) (ip : t) : t :=
    mk (AllocationUUID ip) (IPAddress ip) (ParentPrefixCidr ip) (Name ip) (Description ip)
       (NetworkID ip) (ProjectID ip) (Type_ ip) tags (Created ip) (Changed ip).
End IP.

(** [GetID], the method of [metal.IP] that names its datastore entry; its
    body is not among the sources. *)
Class IPEntity : Type := { GetID : IP.t -> string }.

(** [metal.Network], the fields this code reads. *)
Module Network.
Record t : Set := mk {
    ID : string;
    AddressFamilies : list AddressFamily;
    Prefixes : list Prefix;
    Shared : bool;
    ParentNetworkID : string;
    ProjectID : string
  }.
End Network.

(** A project, of which only [p.Meta.Id] is read. *)
Module Project.
Record t : Set := mk { Meta_Id : string }.
End Project.

(** Package apiv2: the wire enums and messages.  A protobuf enum is an int32;
    besides its defined values a decoder can deliver any other number. *)
Module apiv2.

Inductive IPType : Set :=
  | IP_TYPE_UNSPECIFIED
  | IP_TYPE_EPHEMERAL
  | IP_TYPE_STATIC
  | IP_TYPE_undefined (n : Z).

Inductive IPAddressFamily : Set :=
  | IP_ADDRESS_FAMILY_UNSPECIFIED
  | IP_ADDRESS_FAMILY_V4
  | IP_ADDRESS_FAMILY_V6
  | IP_ADDRESS_FAMILY_undefined (n : Z).

(** [timestamppb.Timestamp]. *)
Record Timestamp : Set := { seconds : Z; nanos : Z }.

End apiv2.

Module IPServiceCreateRequest.
Record t : Set := mk {
    Network : string;
    Project : string;
    Name : option string;
    Description : option string;
    Ip : option string;
    MachineId : option string;
    Tags : list string;
    Type_ : option apiv2.IPType;
    AddressFamily : option apiv2.IPAddressFamily
  }.

Definition set_Type (ty : option apiv2.IPType) (req : t) : t :=
  mk (Network req) (Project req) (Name req) (Description req) (Ip req)
     (MachineId req) (Tags req) ty (AddressFamily req).
End IPServiceCreateRequest.

Module IPServiceUpdateRequest.
Record t : Set := mk {
    Ip : string;
    Project : string;
    Name : option string;
    Description : option string;
    Type_ : option apiv2.IPType;
    Tags : list string
  }.
End IPServiceUpdateRequest.

(** [apiv2.IPServiceListRequest] and [adminv2.IPServiceListRequest] carry the
    same ten fields. *)
Module IPServiceListRequest.
Record t : Set := mk {
    Ip : option string;
    Network : option string;
    Project : option string;
    Name : option string;
    Uuid : option string;
    MachineId : option string;
    ParentPrefixCidr : option string;
    Tags : list string;
    Type_ : option apiv2.IPType;
    AddressFamily : option apiv2.IPAddressFamily
  }.
End IPServiceListRequest.

(** [apiv2.IP], the wire record. *)
Module ApiIP.
Record t : Set := mk {
    Ip : string;
    Uuid : string;
    Name : string;
    Description : string;
    Network : string;
    Project : string;
    Type_ : apiv2.IPType;
    Tags : list string;
    CreatedAt : apiv2.Timestamp;
    UpdatedAt : apiv2.Timestamp
  }.
End ApiIP.

(** The requests of the ipam client ([ipamapiv1]). *)
Record AcquireIPRequest : Set := { PrefixCidr : string; Ip : option string }.
Record ReleaseIPRequest : Set := { Release_Ip : string; Release_PrefixCidr : string }.

Definition ProjectScope := string.


(** ** What the code takes from other packages *)

(** net/netip, the part of it used here: [ParseAddr], [Addr.Is6],
    [ParsePrefix], [Prefix.Addr] and [Prefix.Contains].  [Contains] answers
    false when the prefix and the address differ in bit length, which is the
    one law of the package the theorems rest on. *)
Class Netip : Type := {
  Addr : Set;
  NetPrefix : Set;
  ParseAddr : string -> error + Addr;
  Is6 : Addr -> bool;
  ParsePrefix : string -> error + NetPrefix;
  Prefix_Addr : NetPrefix -> Addr;
  Contains : NetPrefix -> Addr -> bool;
  Contains_same_length :
    forall pfx ip, Contains pfx ip = true -> Is6 (Prefix_Addr pfx) = Is6 ip
}.

(** The address family of a parsed address, as AllocateSpecificIP derives it:
    [af := metal.IPv4AddressFamily; if parsedIP.Is6() { af = metal.IPv6AddressFamily }]. *)
Definition family_of `{Netip} (a : Addr) : AddressFamily :=
  if Is6 a then IPv6AddressFamily else IPv4AddressFamily.

(** The family of a prefix in CIDR notation, when it parses. *)
Definition prefix_family `{Netip} (p : Prefix) : option AddressFamily :=
  match ParsePrefix p with
  | inr pfx => Some (family_of (Prefix_Addr pfx))
  | inl _ => None
  end.

(** Modelled from the spec: [Prefixes.OfFamily] is declared in package metal,
    which is not among the sources.  The spec has the allocation loops run
    over "each prefix of that family (in listed order)": OfFamily keeps the
    listed order and selects by the prefix alone, and for IPv4 and IPv6 it
    selects the prefixes that parse to that family.  What it selects for any
    other value of the family, the zero value included, the spec leaves open,
    and so does this class. *)
Class PrefixesOfFamily `{Netip} : Type := {
  in_family : AddressFamily -> Prefix -> bool;
  in_family_IPv4 : forall p,
    in_family IPv4AddressFamily p = true <-> prefix_family p = Some IPv4AddressFamily;
  in_family_IPv6 : forall p,
    in_family IPv6AddressFamily p = true <-> prefix_family p = Some IPv6AddressFamily
}.

Definition OfFamily `{PrefixesOfFamily} (ps : list Prefix) (af : AddressFamily) : list Prefix :=
  filter (in_family af) ps.

(** github.com/metal-stack/metal-lib/pkg/tag: labels and the map built from
    them.  [TagMap_Value m key] is [m.Value(key)], [Some v] when [ok]. *)
Class TagLib : Type := {
  tag_MachineID : string;
  tag_New : string -> string -> string;
  TagMap : Set;
  NewTagMap : list string -> TagMap;
  TagMap_Slice : TagMap -> list string;
  TagMap_Value : TagMap -> string -> option string
}.

(** pkg/validate, not among the sources: [ValidateAddressFamily] returns an
    error or nil. *)
Class Validate : Type := {
  ValidateAddressFamily : apiv2.IPAddressFamily -> option error
}.

(** ** Collaborators and programs *)

(** The calls the repository makes on its collaborators, indexed by what a
    call returns: a Go [(value, error)] pair is a sum, a lone [error] an
    option.  [ipam_AcquireIP] returns [resp.Msg.Ip.Ip]. *)
Inductive call : Set -> Type :=
| Project_Get (id : string) : call (error + Project.t)
| Network_Get (scope : ProjectScope) (id : string) : call (error + Network.t)
| ipam_AcquireIP (rq : AcquireIPRequest) : call (error + string)
| ipam_ReleaseIP (rq : ReleaseIPRequest) : call (option error)
| ds_IP_Get (id : string) : call (error + IP.t)
| ds_IP_Create (ip : IP.t) : call (error + IP.t)
| ds_IP_Update (new old : IP.t) : call (option error)
| ds_IP_Delete (ip : IP.t) : call (option error)
| ds_IP_List (rq : IPServiceListRequest.t) : call (error + list IP.t)
| uuid_NewV7 : call (error + string).

(** A program: it returns, or makes a call and goes on with the response. *)
Inductive prog (A : Type) : Type :=
| Ret (a : A)
| Do (X : Set) (c : call X) (k : X -> prog A).

Arguments Ret {A} a.
Arguments Do {A X} c k.

Fixpoint bind {A B : Type} (m : prog A) (f : A -> prog B) : prog B :=
  match m with
  | Ret a => f a
  | Do c k => Do c (fun x => bind (k x) f)
  end.

(** [x, err := m; if err != nil { return nil, wrap(err) }; k x]. *)
Definition bind_or_return {X A : Type} (m : prog (error + X)) (wrap : error -> error)
  (k : X -> prog (error + A)) : prog (error + A) :=
  bind m (fun r => match r with
                   | inl err => Ret (inl (wrap err))
                   | inr x => k x
                   end).

Notation "x <- m 'or_return' wrap ;; k" := (bind_or_return m wrap (fun x => k))
  (at level 61, m at next level, wrap at next level, right associativity).

(** One call of the trace, with its response. *)
Inductive event : Type :=
| Ev (X : Set) (c : call X) (x : X).

Arguments Ev {X} c x.

(** An implementation of the collaborators: a state and, for every call, the
    response and the next state. *)
Class Backends : Type := {
  World : Type;
  handle : forall X : Set, call X -> World -> X * World
}.

Fixpoint run {B : Backends} {A : Type} (p : prog A) (w : World) : A * World * list event :=
  match p with
  | Ret a => (a, w, [])
  | Do c k =>
      let (x, w1) := handle c w in
      let '(a, w2, tr) := run (k x) w1 in
      (a, w2, Ev c x :: tr)
  end.

Definition result_of {A W : Type} (r : A * W * list event) : A := fst (fst r).
Definition world_of {A W : Type} (r : A * W * list event) : W := snd (fst r).
Definition trace_of {A W : Type} (r : A * W * list event) : list event := snd r.

(** Which collaborator an event belongs to. *)
Definition is_ipam (e : event) : bool :=
  match e with
  | Ev (ipam_AcquireIP _) _ => true
  | Ev (ipam_ReleaseIP _) _ => true
  | _ => false
  end.

Definition is_acquire (e : event) : bool :=
  match e with Ev (ipam_AcquireIP _) _ => true | _ => false end.

Definition is_release (e : event) : bool :=
  match e with Ev (ipam_ReleaseIP _) _ => true | _ => false end.

Definition is_ds_write (e : event) : bool :=
  match e with
  | Ev (ds_IP_Create _) _ => true
  | Ev (ds_IP_Update _ _) _ => true
  | Ev (ds_IP_Delete _) _ => true
  | _ => false
  end.

(** ** pkg/repository/ip.go *)

Section Repository.

Context {N : Netip} {OF : PrefixesOfFamily} {TL : TagLib} {V : Validate} {E : IPEntity}.

(** [ipRepository.Get]. *)
Definition Get (scope : ProjectScope) (id : string) : prog (error + IP.t) :=
  ip <- Do (ds_IP_Get id) Ret or_return (fun err => err) ;;
  if negb (String.eqb scope (IP.ProjectID ip))
  then Ret (inl (generic_NotFound "ip with id:%s not found" [id]))
  else Ret (inr ip).

(** [AllocateSpecificIP], the loop over [parent.Prefixes.OfFamily(af)]. *)
Fixpoint AllocateSpecificIP_loop (specificIP : string) (parsedIP : Addr)
  (prefixes : list Prefix) : prog (error + string * string) :=
  match prefixes with
  | [] => Ret (inl (fmt_Errorf "specific ip not contained in any of the defined prefixes" []))
  | prefix :: rest =>
      match ParsePrefix prefix with
      | inl err => Ret (inl (fmt_Errorf_w "unable to parse prefix: %w" err))
      | inr pfx =>
          if negb (Contains pfx parsedIP)
          then AllocateSpecificIP_loop specificIP parsedIP rest
          else
            Do (ipam_AcquireIP {| PrefixCidr := prefix; Ip := Some specificIP |})
               (fun resp =>
                  match resp with
                  | inl err =>
                      match errors_As_connect err with
                      | Some code =>
                          if Code_eq_dec code CodeAlreadyExists
                          then Ret (inl (generic_Conflict "ip already allocated" []))
                          else Ret (inl err)
                      | None => Ret (inl err)
                      end
                  | inr ip => Ret (inr (ip, prefix))
                  end)
      end
  end.

(** [ipRepository.AllocateSpecificIP]. *)
Definition AllocateSpecificIP (parent : Network.t) (specificIP : string)
  : prog (error + string * string) :=
  match ParseAddr specificIP with
  | inl err => Ret (inl (fmt_Errorf_w "unable to parse specific ip: %w" err))
  | inr parsedIP =>
      let af := family_of parsedIP in
      AllocateSpecificIP_loop specificIP parsedIP (OfFamily (Network.Prefixes parent) af)
  end.

(** The family AllocateRandomIP settles on, from its pointer argument [af]
    ([None] is nil) and the network. *)
Definition AllocateRandomIP_addressfamily (parent : Network.t)
  (af : option AddressFamily) : AddressFamily :=
  match af with
  | Some a => a
  | None =>
      match Network.AddressFamilies parent with
      | [single] => single
      | _ => IPv4AddressFamily
      end
  end.

(** [AllocateRandomIP], the loop over [parent.Prefixes.OfFamily(addressfamily)]. *)
Fixpoint AllocateRandomIP_loop (prefixes : list Prefix) : prog (error + string * string) :=
  match prefixes with
  | [] => Ret (inl (fmt_Errorf "cannot allocate free ip in ipam, no ips left" []))
  | prefix :: rest =>
      Do (ipam_AcquireIP {| PrefixCidr := prefix; Ip := None |})
         (fun resp =>
            match resp with
            | inl err =>
                match errors_As_connect err with
                | Some code =>
                    if Code_eq_dec code CodeNotFound
                    then AllocateRandomIP_loop rest
                    else Ret (inl err)
                | None => Ret (inl err)
                end
            | inr ip => Ret (inr (ip, prefix))
            end)
  end.

(** [ipRepository.AllocateRandomIP]. *)
Definition AllocateRandomIP (parent : Network.t) (af : option AddressFamily)
  : prog (error + string * string) :=
  let addressfamily := AllocateRandomIP_addressfamily parent af in
  AllocateRandomIP_loop (OfFamily (Network.Prefixes parent) addressfamily).

(** Create, the block that settles [af] from the request (the local starts at
    the zero value of [metal.AddressFamily]). *)
Definition Create_af (req : IPServiceCreateRequest.t) (nw : Network.t)
  : error + AddressFamily :=
  match IPServiceCreateRequest.AddressFamily req with
  | None => inr AddressFamily_zero
  | Some reqaf =>
      match ValidateAddressFamily reqaf with
      | Some err => inl (connect_NewError CodeInvalidArgument err)
      | None =>
          let switch :=
            match reqaf with
            | apiv2.IP_ADDRESS_FAMILY_V4 => inr IPv4AddressFamily
            | apiv2.IP_ADDRESS_FAMILY_V6 => inr IPv6AddressFamily
            | apiv2.IP_ADDRESS_FAMILY_UNSPECIFIED =>
                inl (connect_NewError CodeInvalidArgument
                       (fmt_Errorf "unsupported addressfamily" []))
            | apiv2.IP_ADDRESS_FAMILY_undefined _ => inr AddressFamily_zero
            end in
          match switch with
          | inl err => inl err
          | inr af =>
              if negb (existsb (String.eqb af) (Network.AddressFamilies nw))
              then inl (connect_NewError CodeInvalidArgument
                          (fmt_Errorf "there is no prefix for the given addressfamily:%s present in network:%s %s"
                             (af :: IPServiceCreateRequest.Network req :: Network.AddressFamilies nw)))
              else
                match IPServiceCreateRequest.Ip req with
                | Some _ =>
                    inl (connect_NewError CodeInvalidArgument
                           (fmt_Errorf "it is not possible to specify specificIP and addressfamily" []))
                | None => inr af
                end
          end
      end
  end.

(** Create, the check on private, unshared networks:
    [!nw.Shared && nw.ParentNetworkID != "" && p.Meta.Id != nw.ProjectID]. *)
Definition Create_foreign_network (p : Project.t) (nw : Network.t) : bool :=
  negb (Network.Shared nw)
  && negb (String.eqb (Network.ParentNetworkID nw) EmptyString)
  && negb (String.eqb (Project.Meta_Id p) (Network.ProjectID nw)).

(** Create, the switch on [req.Type]. *)
Definition Create_ipType (req : IPServiceCreateRequest.t) : error + IPType :=
  match IPServiceCreateRequest.Type_ req with
  | None => inr Ephemeral
  | Some apiv2.IP_TYPE_EPHEMERAL => inr Ephemeral
  | Some apiv2.IP_TYPE_STATIC => inr Static
  | Some apiv2.IP_TYPE_UNSPECIFIED =>
      inl (connect_NewError CodeInternal
             (fmt_Errorf "given ip type is not supported:%s" ["IP_TYPE_UNSPECIFIED"]))
  | Some (apiv2.IP_TYPE_undefined _) => inr Ephemeral
  end.

(** Create, the tags: the machine id appended as a tag, then
    [tag.NewTagMap(tags).Slice()]. *)
Definition Create_tags (req : IPServiceCreateRequest.t) : list string :=
  let tags := IPServiceCreateRequest.Tags req in
  let tags :=
    match IPServiceCreateRequest.MachineId req with
    | Some machineId => (tags ++ [tag_New tag_MachineID machineId])%list
    | None => tags
    end in
  TagMap_Slice (NewTagMap tags).

(** Create, the acquisition: [AllocateRandomIP(ctx, nw, &af)] when [req.Ip]
    is nil, the pointer being to the local [af] and so never nil, and
    [AllocateSpecificIP(ctx, nw, *req.Ip)] otherwise. *)
Definition Create_allocation (req : IPServiceCreateRequest.t) (nw : Network.t)
  (af : AddressFamily) : prog (error + string * string) :=
  match IPServiceCreateRequest.Ip req with
  | None => AllocateRandomIP nw (Some af)
  | Some ip => AllocateSpecificIP nw ip
  end.

Definition from_option (o : option string) : string :=
  match o with Some s => s | None => EmptyString end.

(** Create, the record it hands to the datastore. *)
Definition Create_ip (req : IPServiceCreateRequest.t) (p : Project.t) (nw : Network.t)
  (ipAddress ipParentCidr : string) (ipType : IPType) (uuid : string) : IP.t :=
  {| IP.AllocationUUID := uuid;
     IP.IPAddress := ipAddress;
     IP.ParentPrefixCidr := ipParentCidr;
     IP.Name := from_option (IPServiceCreateRequest.Name req);
     IP.Description := from_option (IPServiceCreateRequest.Description req);
     IP.NetworkID := Network.ID nw;
     IP.ProjectID := Project.Meta_Id p;
     IP.Type_ := ipType;
     IP.Tags := Create_tags req;
     IP.Created := time.zero;
     IP.Changed := time.zero |}.

(** Create, the error of the check on private, unshared networks. *)
Definition Create_foreign_network_error (p : Project.t) (nw : Network.t) : error :=
  connect_NewError CodeInvalidArgument
    (fmt_Errorf "can not allocate ip for project %q because network belongs to %q and the network is not shared"
       [Project.Meta_Id p; Network.ProjectID nw]).

(** [ipRepository.Create]. *)
Definition Create (req : IPServiceCreateRequest.t) : prog (error + IP.t) :=
  p <- Do (Project_Get (IPServiceCreateRequest.Project req)) Ret
       or_return (connect_NewError CodeInternal) ;;
  nw <- Do (Network_Get (IPServiceCreateRequest.Project req)
                        (IPServiceCreateRequest.Network req)) Ret
        or_return (connect_NewError CodeInternal) ;;
  af <- Ret (Create_af req nw) or_return (fun err => err) ;;
  if Create_foreign_network p nw
  then Ret (inl (Create_foreign_network_error p nw))
  else
    alloc <- Create_allocation req nw af or_return (connect_NewError CodeInternal) ;;
    ipType <- Ret (Create_ipType req) or_return (fun err => err) ;;
    uuid <- Do uuid_NewV7 Ret or_return (fun err => err) ;;
    let ip := Create_ip req p nw (fst alloc) (snd alloc) ipType uuid in
    resp <- Do (ds_IP_Create ip) Ret or_return (fun err => err) ;;
    Ret (inr resp).

(** Update, the switch on [rq.Type.String()]: an undefined number matches no
    case and leaves [t] at the zero value of [metal.IPType]. *)
Definition Update_type (ty : apiv2.IPType) : error + IPType :=
  match ty with
  | apiv2.IP_TYPE_EPHEMERAL => inr Ephemeral
  | apiv2.IP_TYPE_STATIC => inr Static
  | apiv2.IP_TYPE_UNSPECIFIED =>
      inl (connect_NewError CodeInvalidArgument
             (fmt_Errorf "ip type cannot be unspecified: %s" ["IP_TYPE_UNSPECIFIED"]))
  | apiv2.IP_TYPE_undefined _ => inr IPType_zero
  end.

(** Update, the record it builds: [new := *old] and the assignments that
    follow, up to [new.Tags = rq.Tags]. *)
Definition Update_new (rq : IPServiceUpdateRequest.t) (old : IP.t) : error + IP.t :=
  let new := old in
  let new :=
    match IPServiceUpdateRequest.Description rq with
    | Some d => IP.set_Description d new
    | None => new
    end in
  let new :=
    match IPServiceUpdateRequest.Name rq with
    | Some n => IP.set_Name n new
    | None => new
    end in
  let typed :=
    match IPServiceUpdateRequest.Type_ rq with
    | Some ty =>
        match Update_type ty with
        | inl err => inl err
        | inr t => inr (IP.set_Type t new)
        end
    | None => inr new
    end in
  match typed with
  | inl err => inl err
  | inr new => inr (IP.set_Tags (IPServiceUpdateRequest.Tags rq) new)
  end.

(** [ipRepository.Update]. *)
Definition Update (scope : ProjectScope) (rq : IPServiceUpdateRequest.t)
  : prog (error + IP.t) :=
  old <- Get scope (IPServiceUpdateRequest.Ip rq) or_return (fun err => err) ;;
  new <- Ret (Update_new rq old) or_return (fun err => err) ;;
  Do (ds_IP_Update new old)
     (fun err =>
        match err with
        | Some err => Ret (inl err)
        | None => Ret (inr new)
        end).

(** Delete, what it does with the error of ReleaseIP: [Some err] is the
    [return nil, err], [None] falls through to the datastore. *)
Definition Delete_release_error (err : option error) : option error :=
  match err with
  | None => None
  | Some err =>
      match errors_As_connect err with
      | Some code => if Code_eq_dec code CodeNotFound then None else Some err
      | None => None
      end
  end.

(** [ipRepository.Delete]. *)
Definition Delete (scope : ProjectScope) (ip : IP.t) : prog (error + IP.t) :=
  ip <- Get scope (GetID ip) or_return (fun err => err) ;;
  Do (ipam_ReleaseIP {| Release_Ip := IP.IPAddress ip;
                        Release_PrefixCidr := IP.ParentPrefixCidr ip |})
     (fun err =>
        match Delete_release_error err with
        | Some err => Ret (inl err)
        | None =>
            Do (ds_IP_Delete ip)
               (fun err =>
                  match err with
                  | Some err => Ret (inl err)
                  | None => Ret (inr ip)
                  end)
        end).

(** [ipRepository.List]: the datastore's answer to the filter, as it is. *)
Definition List (rq : IPServiceListRequest.t) : prog (error + list IP.t) :=
  ip <- Do (ds_IP_List rq) Ret or_return (fun err => err) ;;
  Ret (inr ip).

(** [timestamppb.New]. *)
Definition timestamppb_New (t : time.Time) : apiv2.Timestamp :=
  {| apiv2.seconds := time.Unix t; apiv2.nanos := time.Nanosecond t |}.

(** ConvertToProto, the wire record it builds. *)
Definition ConvertToProto_ip (metalIP : IP.t) : ApiIP.t :=
  let t :=
    if String.eqb (IP.Type_ metalIP) Ephemeral then apiv2.IP_TYPE_EPHEMERAL
    else if String.eqb (IP.Type_ metalIP) Static then apiv2.IP_TYPE_STATIC
    else apiv2.IP_TYPE_UNSPECIFIED in
  {| ApiIP.Ip := IP.IPAddress metalIP;
     ApiIP.Uuid := IP.AllocationUUID metalIP;
     ApiIP.Name := IP.Name metalIP;
     ApiIP.Description := IP.Description metalIP;
     ApiIP.Network := IP.NetworkID metalIP;
     ApiIP.Project := IP.ProjectID metalIP;
     ApiIP.Type_ := t;
     ApiIP.Tags := IP.Tags metalIP;
     ApiIP.CreatedAt := timestamppb_New (IP.Created metalIP);
     ApiIP.UpdatedAt := timestamppb_New (IP.Changed metalIP) |}.

(** [ipRepository.ConvertToProto]: [return ip, nil]. *)
Definition ConvertToProto (metalIP : IP.t) : error + ApiIP.t :=
  inr (ConvertToProto_ip metalIP).

(** ** pkg/service/ip/admin/ip-service.go *)

(** The record carries the machine tag: [tag.NewTagMap(ip.Tags).Value(tag.MachineID)]
    answers ok. *)
Definition has_machine_tag (tags : list string) : bool :=
  match TagMap_Value (NewTagMap tags) tag_MachineID with
  | Some _ => true
  | None => false
  end.

(** The loop of the admin List over the repository's answer; [res] is the
    slice built so far. *)
Fixpoint admin_List_loop (resp : list IP.t) (res : list ApiIP.t) : error + list ApiIP.t :=
  match resp with
  | [] => inr res
  | ip :: rest =>
      match TagMap_Value (NewTagMap (IP.Tags ip)) tag_MachineID with
      | Some _ => admin_List_loop rest res
      | None =>
          match ConvertToProto ip with
          | inl err => inl (connect_NewError CodeInternal err)
          | inr converted => admin_List_loop rest (res ++ [converted])%list
          end
      end
  end.

(** [ipServiceServer.List]: the request copied field by field, the
    repository's List, and the loop; the result is the [Ips] of the response. *)
Definition admin_List (req : IPServiceListRequest.t) : prog (error + list ApiIP.t) :=
  let adminReq :=
    {| IPServiceListRequest.Ip := IPServiceListRequest.Ip req;
       IPServiceListRequest.Network := IPServiceListRequest.Network req;
       IPServiceListRequest.Project := IPServiceListRequest.Project req;
       IPServiceListRequest.Name := IPServiceListRequest.Name req;
       IPServiceListRequest.Uuid := IPServiceListRequest.Uuid req;
       IPServiceListRequest.MachineId := IPServiceListRequest.MachineId req;
       IPServiceListRequest.ParentPrefixCidr := IPServiceListRequest.ParentPrefixCidr req;
       IPServiceListRequest.Tags := IPServiceListRequest.Tags req;
       IPServiceListRequest.Type_ := IPServiceListRequest.Type_ req;
       IPServiceListRequest.AddressFamily := IPServiceListRequest.AddressFamily req |} in
  resp <- List adminReq or_return (fun err => err) ;;
  Ret (admin_List_loop resp []).

(** ** Notions the theorems are stated with *)

(** The prefix parses and contains the address: the test of
    AllocateSpecificIP's loop. *)
Definition containing (a : Addr) (p : Prefix) : bool :=
  match ParsePrefix p with
  | inr pfx => Contains pfx a
  | inl _ => false
  end.

(** What AllocateSpecificIP returns once the ipam has answered its one call,
    made for [prefix]. *)
Definition specific_answer (prefix : Prefix) (resp : error + string) : error + string * string :=
  match resp with
  | inl err =>
      match errors_As_connect err with
      | Some code =>
          if Code_eq_dec code CodeAlreadyExists
          then inl (generic_Conflict "ip already allocated" [])
          else inl err
      | None => inl err
      end
  | inr ip => inr (ip, prefix)
  end.

(** The prefix parses to the family. *)
Definition has_family (af : AddressFamily) (p : Prefix) : bool :=
  match prefix_family p with
  | Some f => String.eqb f af
  | None => false
  end.

(** The error of AllocateRandomIP when its loop runs out of prefixes. *)
Definition no_ips_left : error :=
  fmt_Errorf "cannot allocate free ip in ipam, no ips left" [].

(** The call of AllocateRandomIP's loop for a prefix. *)
Definition acquire_any (prefix : Prefix) : call (error + string) :=
  ipam_AcquireIP {| PrefixCidr := prefix; Ip := None |}.

(** The ipam answered an acquire with NotFound: the prefix is exhausted. *)
Definition exhausted (e : event) : bool :=
  match e with
  | Ev (ipam_AcquireIP _) (inl err) =>
      match errors_As_connect err with
      | Some code => if Code_eq_dec code CodeNotFound then true else false
      | None => false
      end
  | _ => false
  end.

(** The prefix of an acquire of any free address. *)
Definition random_acquire_of (e : event) : option Prefix :=
  match e with
  | Ev (ipam_AcquireIP {| PrefixCidr := prefix; Ip := None |}) _ => Some prefix
  | _ => None
  end.

(** A run [r] of the random allocation over [prefixes]: the prefixes [tried]
    before the last call were asked in order and answered NotFound, and
    either there was no further prefix and the run failed with [no_ips_left],
    or the next prefix gave an address, or it gave another error. *)
Definition iterates {W : Type} (prefixes : list Prefix)
  (r : (error + string * string) * W * list event) : Prop :=
  exists (tried : list Prefix) (tr0 : list event),
    Forall (fun e => exhausted e = true) tr0
    /\ map random_acquire_of tr0 = map Some tried
    /\ ((prefixes = tried /\ trace_of r = tr0 /\ result_of r = inl no_ips_left)
        \/ (exists prefix rest ip,
               prefixes = (tried ++ prefix :: rest)%list
               /\ trace_of r = (tr0 ++ [Ev (acquire_any prefix) (inr ip)])%list
               /\ result_of r = inr (ip, prefix))
        \/ (exists prefix rest err,
               prefixes = (tried ++ prefix :: rest)%list
               /\ trace_of r = (tr0 ++ [Ev (acquire_any prefix) (inl err)])%list
               /\ exhausted (Ev (acquire_any prefix) (inl err)) = false
               /\ result_of r = inl err)).

(** The ipam answered an acquire with an address. *)
Definition acquired (e : event) : bool :=
  match e with
  | Ev (ipam_AcquireIP _) (inr _) => true
  | _ => false
  end.

(** The error of Create for a request of type Unspecified. *)
Definition type_not_supported : error :=
  connect_NewError CodeInternal
    (fmt_Errorf "given ip type is not supported:%s" ["IP_TYPE_UNSPECIFIED"]).

(** The fields of a record that no update may touch. *)
Definition same_identity (new old : IP.t) : Prop :=
  IP.IPAddress new = IP.IPAddress old
  /\ IP.ParentPrefixCidr new = IP.ParentPrefixCidr old
  /\ IP.NetworkID new = IP.NetworkID old
  /\ IP.ProjectID new = IP.ProjectID old
  /\ IP.AllocationUUID new = IP.AllocationUUID old.

(** What an event of a run of Update may do to the datastore: an update of a
    record that keeps the identity of the one it replaces, and no other write. *)
Definition keeps_identity (e : event) : Prop :=
  match e with
  | Ev (ds_IP_Update new old) _ => same_identity new old
  | Ev (ds_IP_Create _) _ => False
  | Ev (ds_IP_Delete _) _ => False
  | _ => True
  end.

End Repository.

(** ** An implementation of the collaborators

    The theorems below hold for every implementation of the classes above.
    To run the embedding on concrete requests, and to show that what the
    theorems assume can be met, here is one: a fragment of net/netip, the
    OfFamily of a network's prefixes, a tag map, and collaborators with a
    small in-memory ipam and datastore. *)

Module model.

Import Ascii.
Local Open Scope Z_scope.

(** [strings.Split]-like: the fields of [s] between occurrences of [sep]. *)
Fixpoint split_on (sep : ascii) (s : string) : list string :=
  match s with
  | EmptyString => [EmptyString]
  | String c rest =>
      if Ascii.eqb c sep then EmptyString :: split_on sep rest
      else match split_on sep rest with
           | field :: fields => String c field :: fields
           | [] => [String c EmptyString]
           end
  end.

Definition digit_value (c : ascii) : option Z :=
  let n := Z.of_N (N_of_ascii c) in
  if (48 <=? n) && (n <=? 57) then Some (n - 48)
  else if (97 <=? n) && (n <=? 102) then Some (n - 87)
  else if (65 <=? n) && (n <=? 70) then Some (n - 55)
  else None.

(** The number written by [s] in the given base; [None] on an empty field or
    a character that is no digit of the base. *)
Fixpoint number_from (base acc : Z) (s : string) : option Z :=
  match s with
  | EmptyString => Some acc
  | String c rest =>
      match digit_value c with
      | Some d => if d <? base then number_from base (acc * base + d) rest else None
      | None => None
      end
  end.

Definition number (base : Z) (s : string) : option Z :=
  match s with
  | EmptyString => None
  | _ => number_from base 0 s
  end.

Definition leading_zero (s : string) : bool :=
  match s with
  | String "0" (String _ _) => true
  | _ => false
  end.

(** A decimal field of at most [width] characters, without a leading zero,
    and at most [max]. *)
Definition decimal_field (width : nat) (max : Z) (s : string) : option Z :=
  if leading_zero s then None
  else if Nat.ltb width (String.length s) then None
  else match number 10 s with
       | Some n => if n <=? max then Some n else None
       | None => None
       end.

Definition hex_field (s : string) : option Z :=
  if Nat.ltb 4 (String.length s) then None else number 16 s.

(** The fields, most significant first, as one number. *)
Fixpoint join_fields (bits : Z) (acc : Z) (fields : list Z) : Z :=
  match fields with
  | [] => acc
  | f :: rest => join_fields bits (Z.lor (Z.shiftl acc bits) f) rest
  end.

Fixpoint all_some {A : Type} (l : list (option A)) : option (list A) :=
  match l with
  | [] => Some []
  | Some a :: rest => option_map (cons a) (all_some rest)
  | None :: _ => None
  end.

(** An address: its length class and its bits. *)
Record addr : Set := { is6 : bool; bits : Z }.

Definition parse_v4 (s : string) : option addr :=
  match all_some (map (decimal_field 3 255) (split_on "." s)) with
  | Some ([_; _; _; _] as fields) => Some {| is6 := false; bits := join_fields 8 0 fields |}
  | _ => None
  end.

(** A literal that starts or ends with a colon does so with "::": the empty
    field outside the "::" is dropped, the one that marks it stays. *)
Definition drop_leading (fields : list string) : option (list string) :=
  match fields with
  | EmptyString :: EmptyString :: rest => Some (EmptyString :: rest)
  | EmptyString :: _ => None
  | _ => Some fields
  end.

Definition drop_trailing (fields : list string) : option (list string) :=
  option_map (@rev string) (drop_leading (rev fields)).

(** The fields before the first empty one, and those after it if there is one. *)
Fixpoint split_ellipsis (fields : list string) : list string * option (list string) :=
  match fields with
  | [] => ([], None)
  | EmptyString :: rest => ([], Some rest)
  | f :: rest => let (before, after) := split_ellipsis rest in (f :: before, after)
  end.

(** The groups of an IPv6 literal: eight of them, or fewer around one "::",
    which stands for at least one group of zeros. *)
Definition groups (s : string) : option (list Z) :=
  match drop_leading (split_on ":" s) with
  | None => None
  | Some fields =>
      match drop_trailing fields with
      | None => None
      | Some fields =>
          match split_ellipsis fields with
          | (before, None) =>
              match all_some (map hex_field before) with
              | Some gs => if Nat.eqb (List.length gs) 8 then Some gs else None
              | None => None
              end
          | (before, Some after) =>
              match all_some (map hex_field before), all_some (map hex_field after) with
              | Some l, Some r =>
                  if Nat.leb (List.length l + List.length r) 7
                  then Some (l ++ repeat 0 (8 - List.length l - List.length r)%nat ++ r)%list
                  else None
              | _, _ => None
              end
          end
      end
  end.

Definition parse_v6 (s : string) : option addr :=
  match groups s with
  | Some gs => Some {| is6 := true; bits := join_fields 16 0 gs |}
  | None => None
  end.

Definition has_colon (s : string) : bool :=
  existsb (fun f => true) (tl (split_on ":" s)).

Definition parse_addr (s : string) : error + addr :=
  match (if has_colon s then parse_v6 s else parse_v4 s) with
  | Some a => inr a
  | None => inl (fmt_Errorf "ParseAddr(%q): unable to parse IP" [s])
  end.

Definition width (a : addr) : Z := if is6 a then 128 else 32.

Record prefix : Set := { prefix_addr : addr; prefix_bits : Z }.

Definition parse_prefix (s : string) : error + prefix :=
  match split_on "/" s with
  | [ip; len] =>
      match parse_addr ip with
      | inr a =>
          match decimal_field 3 (width a) len with
          | Some n => inr {| prefix_addr := a; prefix_bits := n |}
          | None => inl (fmt_Errorf "netip.ParsePrefix(%q): bad bits after slash" [s])
          end
      | inl err => inl (fmt_Errorf_w "netip.ParsePrefix: %w" err)
      end
  | _ => inl (fmt_Errorf "netip.ParsePrefix(%q): no '/'" [s])
  end.

(** The bits of both that the prefix length covers agree. *)
Definition contains (p : prefix) (a : addr) : bool :=
  Bool.eqb (is6 (prefix_addr p)) (is6 a)
  && (Z.shiftr (Z.lxor (bits (prefix_addr p)) (bits a)) (width a - prefix_bits p) =? 0).

(** A tag is [key=value]; [cut] is [strings.Cut(label, "=")]. *)
Fixpoint cut (label : string) : string * string :=
  match label with
  | EmptyString => (EmptyString, EmptyString)
  | String c rest =>
      if Ascii.eqb c "=" then (EmptyString, rest)
      else let (k, v) := cut rest in (String c k, v)
  end.

(** A tag map as an association list without repeated keys, in the order the
    keys first came. *)
Fixpoint tag_set (k v : string) (m : list (string * string)) : list (string * string) :=
  match m with
  | [] => [(k, v)]
  | (k', v') :: rest =>
      if String.eqb k k' then (k, v) :: rest else (k', v') :: tag_set k v rest
  end.

Definition new_tag_map (labels : list string) : list (string * string) :=
  fold_left (fun m label => let (k, v) := cut label in tag_set k v m) labels [].

Definition tag_value (m : list (string * string)) (key : string) : option string :=
  option_map snd (find (fun kv => String.eqb (fst kv) key) m).

Definition tag_new (key value : string) : string := key ++ "=" ++ value.

Definition tag_slice (m : list (string * string)) : list string :=
  map (fun kv => tag_new (fst kv) (snd kv)) m.

(** The collaborators' state: the projects and networks there are; the
    ipam's address pools, one per prefix, in the order it hands addresses
    out, and the (prefix, address) pairs in use; an error for the ipam client
    to fail with on its next acquire or release, if any (the transport, an
    interceptor); the datastore, keyed by address; the identifiers the uuid
    generator will hand out. *)
Record world : Type := {
  projects : list Project.t;
  networks : list Network.t;
  pools : list (string * list string);
  allocated : list (string * string);
  acquire_fault : option error;
  release_fault : option error;
  store : list IP.t;
  uuids : list string
}.

Definition with_allocated (a : list (string * string)) (w : world) : world :=
  {| projects := projects w; networks := networks w; pools := pools w;
     allocated := a; acquire_fault := acquire_fault w;
     release_fault := release_fault w; store := store w; uuids := uuids w |}.

Definition with_store (s : list IP.t) (w : world) : world :=
  {| projects := projects w; networks := networks w; pools := pools w;
     allocated := allocated w; acquire_fault := acquire_fault w;
     release_fault := release_fault w; store := s; uuids := uuids w |}.

Definition with_uuids (u : list string) (w : world) : world :=
  {| projects := projects w; networks := networks w; pools := pools w;
     allocated := allocated w; acquire_fault := acquire_fault w;
     release_fault := release_fault w; store := store w; uuids := u |}.

Definition in_use (w : world) (prefix ip : string) : bool :=
  existsb (fun pa => String.eqb (fst pa) prefix && String.eqb (snd pa) ip) (allocated w).

Definition pool_of (w : world) (prefix : string) : list string :=
  match find (fun pl => String.eqb (fst pl) prefix) (pools w) with
  | Some pl => snd pl
  | None => []
  end.

Definition acquire (rq : AcquireIPRequest) (w : world) : (error + string) * world :=
  match acquire_fault w with
  | Some err => (inl err, w)
  | None =>
      match Ip rq with
      | Some ip =>
          if in_use w (PrefixCidr rq) ip
          then (inl (connect_NewError CodeAlreadyExists
                       (fmt_Errorf "ip %s already allocated" [ip])), w)
          else (inr ip, with_allocated ((PrefixCidr rq, ip) :: allocated w) w)
      | None =>
          match find (fun ip => negb (in_use w (PrefixCidr rq) ip)) (pool_of w (PrefixCidr rq)) with
          | Some ip => (inr ip, with_allocated ((PrefixCidr rq, ip) :: allocated w) w)
          | None => (inl (connect_NewError CodeNotFound
                            (fmt_Errorf "no more ips in prefix %s left" [PrefixCidr rq])), w)
          end
      end
  end.

Definition release (rq : ReleaseIPRequest) (w : world) : option error * world :=
  match release_fault w with
  | Some err => (Some err, w)
  | None =>
      if in_use w (Release_PrefixCidr rq) (Release_Ip rq)
      then (None,
            with_allocated
              (filter (fun pa => negb (String.eqb (fst pa) (Release_PrefixCidr rq)
                                       && String.eqb (snd pa) (Release_Ip rq)))
                 (allocated w)) w)
      else (Some (connect_NewError CodeNotFound
                    (fmt_Errorf "ip %s not found" [Release_Ip rq])), w)
  end.

Definition stored (w : world) (id : string) : option IP.t :=
  find (fun ip => String.eqb (IP.IPAddress ip) id) (store w).

Definition matches (rq : IPServiceListRequest.t) (ip : IP.t) : bool :=
  match IPServiceListRequest.Project rq with
  | Some p => String.eqb p (IP.ProjectID ip)
  | None => true
  end
  && match IPServiceListRequest.Network rq with
     | Some n => String.eqb n (IP.NetworkID ip)
     | None => true
     end.

Definition serve (X : Set) (c : call X) (w : world) : X * world :=
  match c in call X return X * world with
  | Project_Get id =>
      match find (fun p => String.eqb (Project.Meta_Id p) id) (projects w) with
      | Some p => (inr p, w)
      | None => (inl (generic_NotFound "project %s not found" [id]), w)
      end
  | Network_Get _ id =>
      match find (fun n => String.eqb (Network.ID n) id) (networks w) with
      | Some n => (inr n, w)
      | None => (inl (generic_NotFound "network %s not found" [id]), w)
      end
  | ipam_AcquireIP rq => acquire rq w
  | ipam_ReleaseIP rq => release rq w
  | ds_IP_Get id =>
      match stored w id with
      | Some ip => (inr ip, w)
      | None => (inl (generic_NotFound "ip %s not found" [id]), w)
      end
  | ds_IP_Create ip =>
      match stored w (IP.IPAddress ip) with
      | Some _ => (inl (generic_Conflict "ip %s already exists" [IP.IPAddress ip]), w)
      | None => (inr ip, with_store (store w ++ [ip])%list w)
      end
  | ds_IP_Update new old =>
      match stored w (IP.IPAddress old) with
      | Some _ =>
          (None,
           with_store
             (map (fun ip => if String.eqb (IP.IPAddress ip) (IP.IPAddress old) then new else ip)
                (store w)) w)
      | None => (Some (generic_NotFound "ip %s not found" [IP.IPAddress old]), w)
      end
  | ds_IP_Delete ip =>
      match stored w (IP.IPAddress ip) with
      | Some _ =>
          (None,
           with_store
             (filter (fun e => negb (String.eqb (IP.IPAddress e) (IP.IPAddress ip))) (store w)) w)
      | None => (Some (generic_NotFound "ip %s not found" [IP.IPAddress ip]), w)
      end
  | ds_IP_List rq => (inr (filter (matches rq) (store w)), w)
  | uuid_NewV7 =>
      match uuids w with
      | u :: rest => (inr u, with_uuids rest w)
      | [] => (inl (fmt_Errorf "uuid: no entropy" []), w)
      end
  end.

(** A selection for OfFamily: a prefix that does not parse is skipped, and so
    is an IPv4 prefix when IPv6 is asked for and an IPv6 prefix when IPv4 is
    asked for; for any other value of the family every prefix that parses is
    kept. *)
Definition in_family (af : AddressFamily) (p : Prefix) : bool :=
  match parse_prefix p with
  | inl _ => false
  | inr pfx =>
      negb (negb (is6 (prefix_addr pfx)) && String.eqb af IPv6AddressFamily)
      && negb (is6 (prefix_addr pfx) && String.eqb af IPv4AddressFamily)
  end.

Definition validate_address_family (af : apiv2.IPAddressFamily) : option error :=
  match af with
  | apiv2.IP_ADDRESS_FAMILY_V4 | apiv2.IP_ADDRESS_FAMILY_V6 => None
  | _ => Some (fmt_Errorf "unsupported addressfamily" [])
  end.

End model.

(** The model as instances of the classes. *)

Lemma model_contains_same_length (pfx : model.prefix) (ip : model.addr) :
  model.contains pfx ip = true -> model.is6 (model.prefix_addr pfx) = model.is6 ip.
Proof.
  unfold model.contains. intros Hc.
  apply andb_prop in Hc. destruct Hc as [Hfam _].
  now apply Bool.eqb_prop.
Qed.

Definition model_Netip : Netip :=
  {| Addr := model.addr;
     NetPrefix := model.prefix;
     ParseAddr := model.parse_addr;
     Is6 := model.is6;
     ParsePrefix := model.parse_prefix;
     Prefix_Addr := model.prefix_addr;
     Contains := model.contains;
     Contains_same_length := model_contains_same_length |}.

Lemma model_in_family_IPv4 (p : Prefix) :
  model.in_family IPv4AddressFamily p = true <->
  @prefix_family model_Netip p = Some IPv4AddressFamily.
Proof.
  unfold model.in_family, prefix_family, family_of. simpl.
  destruct (model.parse_prefix p) as [err | pfx]; [split; discriminate |].
  destruct (model.is6 (model.prefix_addr pfx)); cbv; split; congruence.
Qed.

Lemma model_in_family_IPv6 (p : Prefix) :
  model.in_family IPv6AddressFamily p = true <->
  @prefix_family model_Netip p = Some IPv6AddressFamily.
Proof.
  unfold model.in_family, prefix_family, family_of. simpl.
  destruct (model.parse_prefix p) as [err | pfx]; [split; discriminate |].
  destruct (model.is6 (model.prefix_addr pfx)); cbv; split; congruence.
Qed.

Definition model_PrefixesOfFamily : @PrefixesOfFamily model_Netip :=
  {| in_family := model.in_family;
     in_family_IPv4 := model_in_family_IPv4;
     in_family_IPv6 := model_in_family_IPv6 |}.

Definition model_TagLib : TagLib :=
  {| tag_MachineID := "metal.metal-stack.io/machineid";
     tag_New := model.tag_new;
     TagMap := list (string * string);
     NewTagMap := model.new_tag_map;
     TagMap_Slice := model.tag_slice;
     TagMap_Value := model.tag_value |}.

Definition model_Validate : Validate :=
  {| ValidateAddressFamily := model.validate_address_family |}.

Definition model_IPEntity : IPEntity := {| GetID := IP.IPAddress |}.

Definition model_Backends : Backends :=
  {| World := model.world; handle := model.serve |}.

(** ** Scenarios

    Two projects; an IPv4 network, an IPv6 network and a network with both
    families, all of project p1 and without a parent; and a private network
    of p1 under the IPv4 one. *)

Module scenario.

Definition n4 : Network.t :=
  Network.mk "n4" [IPv4AddressFamily] ["10.0.0.0/24"] false "" "p1".

Definition n6 : Network.t :=
  Network.mk "n6" [IPv6AddressFamily] ["2001:db8:1::/64"] false "" "p1".

Definition n46 : Network.t :=
  Network.mk "n46" [IPv4AddressFamily; IPv6AddressFamily]
    ["2001:db8::/64"; "10.0.1.0/24"] false "" "p1".

Definition child : Network.t :=
  Network.mk "child" [IPv4AddressFamily] ["10.0.2.0/24"] false "n4" "p1".

(** Nothing allocated, nothing stored. *)
Definition fresh : model.world :=
  {| model.projects := [Project.mk "p1"; Project.mk "p2"];
     model.networks := [n4; n6; n46; child];
     model.pools := [("10.0.0.0/24", ["10.0.0.1"; "10.0.0.2"]);
                     ("2001:db8:1::/64", ["2001:db8:1::1"]);
                     ("2001:db8::/64", ["2001:db8::1"]);
                     ("10.0.1.0/24", ["10.0.1.1"]);
                     ("10.0.2.0/24", ["10.0.2.1"])];
     model.allocated := [];
     model.acquire_fault := None;
     model.release_fault := None;
     model.store := [];
     model.uuids := ["0192f0c0-0000-7000-8000-000000000001";
                     "0192f0c0-0000-7000-8000-000000000002"] |}.

(** A tenant address and a machine's address of p1 in n4, both allocated. *)
Definition tenant_ip : IP.t :=
  {| IP.AllocationUUID := "0192f0c0-0000-7000-8000-0000000000a1";
     IP.IPAddress := "10.0.0.1";
     IP.ParentPrefixCidr := "10.0.0.0/24";
     IP.Name := "web";
     IP.Description := "frontend";
     IP.NetworkID := "n4";
     IP.ProjectID := "p1";
     IP.Type_ := Ephemeral;
     IP.Tags := ["color=red"];
     IP.Created := time.zero;
     IP.Changed := time.zero |}.

Definition machine_ip : IP.t :=
  {| IP.AllocationUUID := "0192f0c0-0000-7000-8000-0000000000a2";
     IP.IPAddress := "10.0.0.2";
     IP.ParentPrefixCidr := "10.0.0.0/24";
     IP.Name := "fw";
     IP.Description := "";
     IP.NetworkID := "n4";
     IP.ProjectID := "p1";
     IP.Type_ := Static;
     IP.Tags := ["metal.metal-stack.io/machineid=m1"];
     IP.Created := time.zero;
     IP.Changed := time.zero |}.

Definition populated : model.world :=
  model.with_store [tenant_ip; machine_ip]
    (model.with_allocated [("10.0.0.0/24", "10.0.0.1"); ("10.0.0.0/24", "10.0.0.2")] fresh).

(** The same, with an ipam client whose release fails on the transport. *)
Definition release_broken : model.world :=
  {| model.projects := model.projects populated;
     model.networks := model.networks populated;
     model.pools := model.pools populated;
     model.allocated := model.allocated populated;
     model.acquire_fault := None;
     model.release_fault := Some (fmt_Errorf "dial tcp: connection refused" []);
     model.store := model.store populated;
     model.uuids := model.uuids populated |}.



Definition create (network project : string) (ip : option string)
  (af : option apiv2.IPAddressFamily) (ty : option apiv2.IPType)
  : IPServiceCreateRequest.t :=
  IPServiceCreateRequest.mk network project None None ip None [] ty af.

Definition list_all : IPServiceListRequest.t :=
  IPServiceListRequest.mk None None (Some "p1") None None None None [] None None.

End scenario.

(** * Properties *)

Section Properties.

Context {N : Netip} {OF : PrefixesOfFamily} {TL : TagLib} {V : Validate}
  {E : IPEntity} {B : Backends}.

(** ** Running programs *)

Lemma run_bind {A C : Type} (m : prog A) (f : A -> prog C) (w : World) :
  run (bind m f) w =
  let '(a, w1, t1) := run m w in
  let '(c, w2, t2) := run (f a) w1 in
  (c, w2, (t1 ++ t2)%list).
Proof.
  revert w. induction m as [a | X c k IH]; intros w; simpl.
  - now destruct (run (f a) w) as [[c w2] t2].
  - destruct (handle c w) as [x w1]. rewrite IH.
    destruct (run (k x) w1) as [[a w2] t1].
    now destruct (run (f a) w2) as [[c' w3] t2].
Qed.

Lemma run_bind_or_return {X A : Type} (m : prog (error + X)) (wrap : error -> error)
  (k : X -> prog (error + A)) (w : World) :
  run (bind_or_return m wrap k) w =
  let '(r, w1, t1) := run m w in
  match r with
  | inl err => (inl (wrap err), w1, t1)
  | inr x => let '(c, w2, t2) := run (k x) w1 in (c, w2, (t1 ++ t2)%list)
  end.
Proof.
  unfold bind_or_return. rewrite run_bind.
  destruct (run m w) as [[[err | x] w1] t1]; simpl.
  - now rewrite app_nil_r.
  - reflexivity.
Qed.

Lemma run_Ret {A : Type} (a : A) (w : World) : run (Ret a) w = (a, w, []).
Proof. reflexivity. Qed.

Lemma run_Do_Ret {X : Set} (c : call X) (w : World) :
  run (Do c Ret) w = let (x, w1) := handle c w in (x, w1, [Ev c x]).
Proof. simpl. now destruct (handle c w). Qed.

(** ** Prefixes of a family *)

Lemma family_of_cases (a : Addr) :
  family_of a = IPv4AddressFamily \/ family_of a = IPv6AddressFamily.
Proof. unfold family_of. destruct (Is6 a); auto. Qed.

Lemma in_family_of (a : Addr) (p : Prefix) :
  in_family (family_of a) p = true <-> prefix_family p = Some (family_of a).
Proof.
  destruct (family_of_cases a) as [-> | ->];
    [apply in_family_IPv4 | apply in_family_IPv6].
Qed.

Lemma containing_in_family (a : Addr) (p : Prefix) :
  containing a p = true -> in_family (family_of a) p = true.
Proof.
  unfold containing. intros Hc. apply in_family_of. unfold prefix_family.
  destruct (ParsePrefix p) as [err | pfx]; [discriminate |].
  apply Contains_same_length in Hc. unfold family_of. now rewrite Hc.
Qed.

Lemma in_family_parses (a : Addr) (p : Prefix) :
  in_family (family_of a) p = true -> exists pfx, ParsePrefix p = inr pfx.
Proof.
  intros Hin. apply in_family_of in Hin. unfold prefix_family in Hin.
  destruct (ParsePrefix p) as [err | pfx]; [discriminate | now exists pfx].
Qed.

Lemma find_filter {A : Type} (f g : A -> bool) (l : list A) :
  (forall x, f x = true -> g x = true) ->
  find f (filter g l) = find f l.
Proof.
  intros Hfg. induction l as [| x l IH]; simpl; [reflexivity |].
  destruct (g x) eqn:Hg; simpl.
  - now rewrite IH.
  - destruct (f x) eqn:Hf; [| exact IH].
    apply Hfg in Hf. congruence.
Qed.

(** ** AllocateSpecificIP *)

(** Over prefixes that parse, the loop asks the ipam once, for the first
    prefix that contains the address, and answers from that response; with no
    such prefix it asks nothing. *)
Lemma run_AllocateSpecificIP_loop (specificIP : string) (a : Addr) (w : World) :
  forall prefixes : list Prefix,
  (forall q, In q prefixes -> exists pfx, ParsePrefix q = inr pfx) ->
  run (AllocateSpecificIP_loop specificIP a prefixes) w =
  match find (containing a) prefixes with
  | None =>
      (inl (fmt_Errorf "specific ip not contained in any of the defined prefixes" []), w, [])
  | Some prefix =>
      let rq := {| PrefixCidr := prefix; Ip := Some specificIP |} in
      let (resp, w1) := handle (ipam_AcquireIP rq) w in
      (specific_answer prefix resp, w1, [Ev (ipam_AcquireIP rq) resp])
  end.
Proof.
  induction prefixes as [| q rest IH]; intros Hparse; simpl; [reflexivity |].
  destruct (Hparse q (or_introl eq_refl)) as [pfx Hq].
  unfold containing at 1. rewrite Hq.
  destruct (Contains pfx a) eqn:Hc; simpl.
  - destruct (handle (ipam_AcquireIP {| PrefixCidr := q; Ip := Some specificIP |}) w)
      as [resp w1].
    unfold specific_answer.
    destruct resp as [err | ip]; simpl; [| reflexivity].
    destruct (errors_As_connect err) as [code |]; [| reflexivity].
    now destruct (Code_eq_dec code CodeAlreadyExists).
  - apply IH. intros q' Hq'. apply Hparse. now right.
Qed.

Lemma run_AllocateSpecificIP (parent : Network.t) (specificIP : string) (a : Addr)
  (w : World) :
  ParseAddr specificIP = inr a ->
  run (AllocateSpecificIP parent specificIP) w =
  match find (containing a) (Network.Prefixes parent) with
  | None =>
      (inl (fmt_Errorf "specific ip not contained in any of the defined prefixes" []), w, [])
  | Some prefix =>
      let rq := {| PrefixCidr := prefix; Ip := Some specificIP |} in
      let (resp, w1) := handle (ipam_AcquireIP rq) w in
      (specific_answer prefix resp, w1, [Ev (ipam_AcquireIP rq) resp])
  end.
Proof.
  intros Hparse. unfold AllocateSpecificIP. rewrite Hparse.
  rewrite run_AllocateSpecificIP_loop.
  - unfold OfFamily. rewrite find_filter; [reflexivity |].
    intros p. apply containing_in_family.
  - intros q Hq. unfold OfFamily in Hq. apply filter_In in Hq.
    destruct Hq as [_ Hq]. now apply in_family_parses in Hq.
Qed.

(** ** Create *)

(** The run of Create, step by step: the two lookups, the family, the check
    on foreign networks, the acquisition, the type, the uuid, the datastore. *)
Lemma run_Create (req : IPServiceCreateRequest.t) (w : World) :
  run (Create req) w =
  let pg := Project_Get (IPServiceCreateRequest.Project req) in
  let ng := Network_Get (IPServiceCreateRequest.Project req)
                        (IPServiceCreateRequest.Network req) in
  let (pr, w1) := handle pg w in
  match pr with
  | inl err => (inl (connect_NewError CodeInternal err), w1, [Ev pg pr])
  | inr p =>
      let (nr, w2) := handle ng w1 in
      match nr with
      | inl err => (inl (connect_NewError CodeInternal err), w2, [Ev pg pr; Ev ng nr])
      | inr nw =>
          match Create_af req nw with
          | inl err => (inl err, w2, [Ev pg pr; Ev ng nr])
          | inr af =>
              if Create_foreign_network p nw
              then (inl (Create_foreign_network_error p nw), w2, [Ev pg pr; Ev ng nr])
              else
                let '(ar, w3, tr) := run (Create_allocation req nw af) w2 in
                match ar with
                | inl err =>
                    (inl (connect_NewError CodeInternal err), w3, Ev pg pr :: Ev ng nr :: tr)
                | inr alloc =>
                    match Create_ipType req with
                    | inl err => (inl err, w3, Ev pg pr :: Ev ng nr :: tr)
                    | inr ipType =>
                        let (ur, w4) := handle uuid_NewV7 w3 in
                        match ur with
                        | inl err =>
                            (inl err, w4,
                             Ev pg pr :: Ev ng nr :: (tr ++ [Ev uuid_NewV7 ur])%list)
                        | inr uuid =>
                            let ip := Create_ip req p nw (fst alloc) (snd alloc) ipType uuid in
                            let (cr, w5) := handle (ds_IP_Create ip) w4 in
                            (cr, w5,
                             Ev pg pr :: Ev ng nr
                               :: (tr ++ [Ev uuid_NewV7 ur; Ev (ds_IP_Create ip) cr])%list)
                        end
                    end
                end
          end
      end
  end.
Proof.
  unfold Create. cbv zeta.
  rewrite run_bind_or_return, run_Do_Ret.
  destruct (handle (Project_Get (IPServiceCreateRequest.Project req)) w) as [pr w1].
  destruct pr as [err | p]; [reflexivity |].
  rewrite run_bind_or_return, run_Do_Ret.
  destruct (handle (Network_Get (IPServiceCreateRequest.Project req)
                      (IPServiceCreateRequest.Network req)) w1) as [nr w2].
  destruct nr as [err | nw]; [reflexivity |].
  rewrite run_bind_or_return, run_Ret.
  destruct (Create_af req nw) as [err | af]; [reflexivity |].
  destruct (Create_foreign_network p nw); [reflexivity |].
  rewrite run_bind_or_return.
  destruct (run (Create_allocation req nw af) w2) as [[ar w3] tr].
  destruct ar as [err | alloc]; [reflexivity |].
  rewrite run_bind_or_return, run_Ret.
  destruct (Create_ipType req) as [err | ipType]; [now rewrite app_nil_r |].
  rewrite run_bind_or_return, run_Do_Ret.
  destruct (handle uuid_NewV7 w3) as [ur w4].
  destruct ur as [err | uuid]; [reflexivity |].
  rewrite run_bind_or_return, run_Do_Ret.
  destruct (handle (ds_IP_Create (Create_ip req p nw (fst alloc) (snd alloc) ipType uuid)) w4)
    as [cr w5].
  destruct cr; reflexivity.
Qed.

(** ** Create on a foreign network *)

(** Every error of [Create_af] is raised with code InvalidArgument. *)
Lemma Create_af_error (req : IPServiceCreateRequest.t) (nw : Network.t) (err : error) :
  Create_af req nw = inl err -> has_code CodeInvalidArgument err.
Proof.
  unfold Create_af, has_code.
  destruct (IPServiceCreateRequest.AddressFamily req) as [reqaf |]; [| discriminate].
  destruct (ValidateAddressFamily reqaf) as [verr |].
  - intros [= <-]. reflexivity.
  - destruct reqaf;
      try (intros [= <-]; reflexivity);
      (match goal with
       | |- context [existsb ?f ?l] => destruct (existsb f l)
       end; simpl;
       [ destruct (IPServiceCreateRequest.Ip req); [intros [= <-]; reflexivity | discriminate]
       | intros [= <-]; reflexivity ]).
Qed.

Lemma Create_foreign_network_true (p : Project.t) (nw : Network.t) :
  Network.Shared nw = false ->
  Network.ParentNetworkID nw <> EmptyString ->
  Project.Meta_Id p <> Network.ProjectID nw ->
  Create_foreign_network p nw = true.
Proof.
  intros Hshared Hparent Hproject. unfold Create_foreign_network.
  rewrite Hshared.
  apply String.eqb_neq in Hparent. apply String.eqb_neq in Hproject.
  now rewrite Hparent, Hproject.
Qed.

(** C4, as amended: when the project and the network resolve and the network
    is unshared, has a parent network and belongs to another project than the
    requesting one, Create fails with a connect error of code InvalidArgument
    (not PermissionDenied), and its only calls are the two lookups: the ipam
    is not called. *)
Theorem Create_foreign_network_rejected
  (req : IPServiceCreateRequest.t) (w w1 w2 : World) (p : Project.t) (nw : Network.t) :
  handle (Project_Get (IPServiceCreateRequest.Project req)) w = (inr p, w1) ->
  handle (Network_Get (IPServiceCreateRequest.Project req)
                      (IPServiceCreateRequest.Network req)) w1 = (inr nw, w2) ->
  Network.Shared nw = false ->
  Network.ParentNetworkID nw <> EmptyString ->
  Project.Meta_Id p <> Network.ProjectID nw ->
  exists err,
    run (Create req) w =
      (inl err, w2,
       [Ev (Project_Get (IPServiceCreateRequest.Project req)) (inr p);
        Ev (Network_Get (IPServiceCreateRequest.Project req)
                        (IPServiceCreateRequest.Network req)) (inr nw)])
    /\ has_code CodeInvalidArgument err
    /\ forallb (fun e => negb (is_ipam e)) (trace_of (run (Create req) w)) = true.
Proof.
  intros Hp Hnw Hshared Hparent Hproject.
  pose proof (Create_foreign_network_true p nw Hshared Hparent Hproject) as Hforeign.
  rewrite run_Create. cbv zeta. rewrite Hp, Hnw, Hforeign.
  destruct (Create_af req nw) as [err | af] eqn:Haf.
  - exists err. repeat split. now apply Create_af_error with (req := req) (nw := nw).
  - exists (Create_foreign_network_error p nw). repeat split.
Qed.

(** ** Create with a specific address *)

Lemma find_containing_none (a : Addr) (prefixes : list Prefix) :
  (forall prefix, In prefix prefixes -> containing a prefix = false) ->
  find (containing a) prefixes = None.
Proof.
  intros Hnone.
  destruct (find (containing a) prefixes) as [first |] eqn:Hfind; [| reflexivity].
  apply find_some in Hfind. destruct Hfind as [Hin Hc].
  now rewrite (Hnone first Hin) in Hc.
Qed.

(** What [find] finds is the first: no prefix listed before it contains the
    address. *)
Lemma find_containing_first (a : Addr) (prefixes : list Prefix) (first : Prefix) :
  find (containing a) prefixes = Some first ->
  containing a first = true
  /\ exists before after,
       prefixes = (before ++ first :: after)%list
       /\ Forall (fun q => containing a q = false) before.
Proof.
  induction prefixes as [| q rest IH]; simpl; [discriminate |].
  destruct (containing a q) eqn:Hq.
  - intros [= <-]. split; [exact Hq |]. exists [], rest. now split.
  - intros Hfind. destruct (IH Hfind) as (Hc & before & after & -> & Hbefore).
    split; [exact Hc |]. exists (q :: before), after. split; [reflexivity |].
    now constructor.
Qed.


(** C6, as amended: for a literal that parses and lies in no prefix of the
    network, AllocateSpecificIP fails without calling the ipam, whatever the
    state of the collaborators, with the error "specific ip not contained in
    any of the defined prefixes", which carries no code; and Create with that
    address, once the lookups have resolved, fails without calling the ipam:
    with code InvalidArgument if one of its earlier checks refuses the
    request, and otherwise with that error under code Internal (not
    InvalidArgument). *)
Theorem Create_specific_not_contained (nw : Network.t) (specificIP : string) (a : Addr) :
  ParseAddr specificIP = inr a ->
  (forall prefix, In prefix (Network.Prefixes nw) -> containing a prefix = false) ->
  let not_contained :=
    fmt_Errorf "specific ip not contained in any of the defined prefixes" [] in
  (forall w, run (AllocateSpecificIP nw specificIP) w = (inl not_contained, w, []))
  /\ errors_As_connect not_contained = None
  /\ (forall (req : IPServiceCreateRequest.t) (w w1 w2 : World) (p : Project.t),
        IPServiceCreateRequest.Ip req = Some specificIP ->
        handle (Project_Get (IPServiceCreateRequest.Project req)) w = (inr p, w1) ->
        handle (Network_Get (IPServiceCreateRequest.Project req)
                            (IPServiceCreateRequest.Network req)) w1 = (inr nw, w2) ->
        exists err,
          run (Create req) w =
            (inl err, w2,
             [Ev (Project_Get (IPServiceCreateRequest.Project req)) (inr p);
              Ev (Network_Get (IPServiceCreateRequest.Project req)
                              (IPServiceCreateRequest.Network req)) (inr nw)])
          /\ (has_code CodeInvalidArgument err
              \/ err = connect_NewError CodeInternal not_contained)
          /\ (IPServiceCreateRequest.AddressFamily req = None ->
              Create_foreign_network p nw = false ->
              err = connect_NewError CodeInternal not_contained)).
Proof.
  intros Hparse Hnone not_contained.
  assert (Halloc : forall w,
             run (AllocateSpecificIP nw specificIP) w = (inl not_contained, w, [])).
  { intros w. rewrite (run_AllocateSpecificIP nw specificIP w Hparse).
    now rewrite (find_containing_none a _ Hnone). }
  split; [exact Halloc |]. split; [reflexivity |].
  intros req w w1 w2 p Hip Hp Hnw.
  rewrite run_Create. cbv zeta. rewrite Hp, Hnw.
  destruct (Create_af req nw) as [err | af] eqn:Haf.
  - exists err. split; [reflexivity |]. split.
    + left. now apply Create_af_error with (req := req) (nw := nw).
    + intros Hnoaf _. unfold Create_af in Haf. now rewrite Hnoaf in Haf.
  - destruct (Create_foreign_network p nw) eqn:Hforeign.
    + exists (Create_foreign_network_error p nw). split; [reflexivity |]. split.
      * left. reflexivity.
      * intros _ Hfalse. discriminate.
    + unfold Create_allocation. rewrite Hip, Halloc.
      exists (connect_NewError CodeInternal not_contained).
      split; [reflexivity |]. split; [now right | reflexivity].
Qed.

(** ** AllocateRandomIP *)

Lemma OfFamily_resolved (prefixes : list Prefix) (af : AddressFamily) :
  af = IPv4AddressFamily \/ af = IPv6AddressFamily ->
  OfFamily prefixes af = filter (has_family af) prefixes.
Proof.
  intros Haf. unfold OfFamily. apply filter_ext. intros p.
  apply Bool.eq_iff_eq_true. unfold has_family.
  destruct Haf as [-> | ->]; [rewrite in_family_IPv4 | rewrite in_family_IPv6];
    (destruct (prefix_family p) as [f |]; [| split; discriminate]);
    rewrite String.eqb_eq; split; congruence.
Qed.

(** The loop, on any list of prefixes: it asks for the prefixes in order, one
    call each, as long as the ipam answers NotFound; it ends with the error
    [no_ips_left] after the last prefix, or with the first address the ipam
    gives, or with the first error that is not a NotFound. *)
Lemma run_AllocateRandomIP_loop (prefixes : list Prefix) :
  forall w : World, iterates prefixes (run (AllocateRandomIP_loop prefixes) w).
Proof.
  unfold iterates.
  induction prefixes as [| p rest IH]; intros w.
  - exists [], []. split; [constructor |]. split; [reflexivity |].
    left. now repeat split.
  - simpl run. fold (acquire_any p).
    destruct (handle (acquire_any p) w) as [resp w1].
    destruct resp as [err | ip].
    + destruct (errors_As_connect err) as [code |] eqn:Hcode.
      * destruct (Code_eq_dec code CodeNotFound) as [Hnf | Hother].
        -- specialize (IH w1).
           destruct (run (AllocateRandomIP_loop rest) w1) as [[res w2] tr].
           destruct IH as (tried & tr0 & Hall & Hmap & Hcases).
           exists (p :: tried), (Ev (acquire_any p) (inl err) :: tr0).
           split.
           { constructor; [| exact Hall]. simpl. rewrite Hcode.
             now destruct (Code_eq_dec code CodeNotFound). }
           split; [simpl; now rewrite Hmap |].
           unfold trace_of, result_of in *. simpl in *.
           destruct Hcases as [(-> & -> & ->) | [(q & rest' & ip & -> & -> & ->)
                                               | (q & rest' & e & -> & -> & Hq & ->)]].
           ++ left. now repeat split.
           ++ right; left. exists q, rest', ip. now repeat split.
           ++ right; right. exists q, rest', e. now repeat split.
        -- exists [], []. split; [constructor |]. split; [reflexivity |].
           right; right. exists p, rest, err. repeat split.
           simpl. rewrite Hcode. now destruct (Code_eq_dec code CodeNotFound).
      * exists [], []. split; [constructor |]. split; [reflexivity |].
        right; right. exists p, rest, err. repeat split.
        simpl. now rewrite Hcode.
    + exists [], []. split; [constructor |]. split; [reflexivity |].
      right; left. exists p, rest, ip. now repeat split.
Qed.

(** C7, as amended: AllocateRandomIP goes through the prefixes that OfFamily
    selects from the network for the family it has settled on, in listed
    order, one acquire per prefix (for a family resolved to IPv4 or IPv6
    these are the network's prefixes that parse to that family); it goes on
    to the next prefix when the ipam answers NotFound, stops with the address
    at the first success, stops with the ipam's error at the first error that
    is not a NotFound, and after the last prefix fails with the error "cannot
    allocate free ip in ipam, no ips left", which carries no code (it is not a
    ResourceExhausted error). *)
Theorem AllocateRandomIP_iteration (parent : Network.t) (af : option AddressFamily)
  (w : World) :
  let family := AllocateRandomIP_addressfamily parent af in
  let r := run (AllocateRandomIP parent af) w in
  errors_As_connect no_ips_left = None
  /\ iterates (OfFamily (Network.Prefixes parent) family) r
  /\ (family = IPv4AddressFamily \/ family = IPv6AddressFamily ->
      OfFamily (Network.Prefixes parent) family
      = filter (has_family family) (Network.Prefixes parent)).
Proof.
  cbv zeta. split; [reflexivity |]. split.
  - unfold AllocateRandomIP. cbv zeta. apply run_AllocateRandomIP_loop.
  - apply OfFamily_resolved.
Qed.

(** ** The calls of an acquisition *)

Lemma exhausted_is_acquire (e : event) :
  exhausted e = true -> is_acquire e = true /\ acquired e = false.
Proof.
  destruct e as [X c x]. destruct c; simpl; try discriminate.
  destruct x as [err | ip]; [now split | discriminate].
Qed.

Lemma acquire_is_no_write (e : event) :
  is_acquire e = true -> is_release e = false /\ is_ds_write e = false.
Proof. destruct e as [X c x]. destruct c; simpl; try discriminate. now split. Qed.

Lemma AllocateRandomIP_loop_trace (prefixes : list Prefix) (w : World) :
  let r := run (AllocateRandomIP_loop prefixes) w in
  Forall (fun e => is_acquire e = true) (trace_of r)
  /\ match result_of r with
     | inr _ =>
         exists tr0 e, trace_of r = (tr0 ++ [e])%list /\ acquired e = true
                       /\ Forall (fun e => acquired e = false) tr0
     | inl _ => Forall (fun e => acquired e = false) (trace_of r)
     end.
Proof.
  cbv zeta.
  destruct (run_AllocateRandomIP_loop prefixes w) as (tried & tr0 & Hall & _ & Hcases).
  unfold result_of, trace_of in *.
  assert (Hacq : Forall (fun e => is_acquire e = true) tr0).
  { eapply Forall_impl; [| exact Hall]. intros e He. now apply exhausted_is_acquire. }
  assert (Hnot : Forall (fun e => acquired e = false) tr0).
  { eapply Forall_impl; [| exact Hall]. intros e He. now apply exhausted_is_acquire. }
  cbv zeta in Hcases.
  destruct Hcases as [(_ & -> & ->) | [(q & rest & ip & _ & -> & ->)
                                     | (q & rest & err & _ & -> & _ & ->)]].
  - now split.
  - split.
    + apply Forall_app. split; [exact Hacq | now repeat constructor].
    + exists tr0, (Ev (acquire_any q) (inr ip)). now repeat split.
  - split; apply Forall_app; (split; [assumption | now repeat constructor]).
Qed.

Lemma AllocateSpecificIP_trace (parent : Network.t) (specificIP : string) (w : World) :
  let r := run (AllocateSpecificIP parent specificIP) w in
  Forall (fun e => is_acquire e = true) (trace_of r)
  /\ match result_of r with
     | inr _ =>
         exists tr0 e, trace_of r = (tr0 ++ [e])%list /\ acquired e = true
                       /\ Forall (fun e => acquired e = false) tr0
     | inl _ => Forall (fun e => acquired e = false) (trace_of r)
     end.
Proof.
  cbv zeta.
  destruct (ParseAddr specificIP) as [perr | a] eqn:Hparse.
  - unfold AllocateSpecificIP. rewrite Hparse. simpl. now split.
  - rewrite (run_AllocateSpecificIP parent specificIP w Hparse).
    destruct (find (containing a) (Network.Prefixes parent)) as [prefix |].
    + cbv zeta.
      destruct (handle (ipam_AcquireIP {| PrefixCidr := prefix; Ip := Some specificIP |}) w)
        as [resp w1].
      unfold trace_of, result_of. simpl.
      split; [now repeat constructor |].
      destruct resp as [err | ip]; simpl.
      * destruct (errors_As_connect err) as [code |];
          [destruct (Code_eq_dec code CodeAlreadyExists) |]; now repeat constructor.
      * exists [], (Ev (ipam_AcquireIP {| PrefixCidr := prefix; Ip := Some specificIP |})
                      (inr ip)).
        now repeat split.
    + simpl. now split.
Qed.

Lemma Create_allocation_trace (req : IPServiceCreateRequest.t) (nw : Network.t)
  (af : AddressFamily) (w : World) :
  let r := run (Create_allocation req nw af) w in
  Forall (fun e => is_acquire e = true) (trace_of r)
  /\ match result_of r with
     | inr _ =>
         exists tr0 e, trace_of r = (tr0 ++ [e])%list /\ acquired e = true
                       /\ Forall (fun e => acquired e = false) tr0
     | inl _ => Forall (fun e => acquired e = false) (trace_of r)
     end.
Proof.
  unfold Create_allocation.
  destruct (IPServiceCreateRequest.Ip req) as [ip |].
  - apply AllocateSpecificIP_trace.
  - apply AllocateRandomIP_loop_trace.
Qed.

(** ** Create with the Unspecified type *)

(** An allocation that succeeds ends with the acquire that gave the address,
    made for the prefix it returns. *)
Lemma Create_allocation_success_last (req : IPServiceCreateRequest.t) (nw : Network.t)
  (af : AddressFamily) (w : World) (alloc : string * string) :
  let r := run (Create_allocation req nw af) w in
  result_of r = inr alloc ->
  exists tr0 rq,
    trace_of r = (tr0 ++ [Ev (ipam_AcquireIP rq) (inr (fst alloc))])%list
    /\ PrefixCidr rq = snd alloc.
Proof.
  cbv zeta. unfold Create_allocation. destruct alloc as [ip prefix]. simpl fst; simpl snd.
  destruct (IPServiceCreateRequest.Ip req) as [specificIP |].
  - destruct (ParseAddr specificIP) as [perr | a] eqn:Hparse.
    + unfold AllocateSpecificIP. rewrite Hparse. discriminate.
    + rewrite (run_AllocateSpecificIP nw specificIP w Hparse).
      destruct (find (containing a) (Network.Prefixes nw)) as [first |]; [| discriminate].
      cbv zeta.
      destruct (handle (ipam_AcquireIP {| PrefixCidr := first; Ip := Some specificIP |}) w)
        as [resp w1].
      unfold result_of, trace_of; simpl. unfold specific_answer.
      destruct resp as [err | ip0].
      * destruct (errors_As_connect err) as [code |];
          [destruct (Code_eq_dec code CodeAlreadyExists) |]; discriminate.
      * intros [= -> ->].
        now exists [], {| PrefixCidr := prefix; Ip := Some specificIP |}.
  - intros Hres. unfold AllocateRandomIP in *. cbv zeta in *.
    destruct (run_AllocateRandomIP_loop
                (OfFamily (Network.Prefixes nw) (AllocateRandomIP_addressfamily nw (Some af))) w)
      as (tried & tr0 & _ & _ & Hcases).
    destruct Hcases as [(_ & _ & Hfail) | [(q & rest & ip0 & _ & Htr & Hok)
                                          | (q & rest & err & _ & _ & _ & Hfail)]];
      try (rewrite Hfail in Hres; discriminate).
    rewrite Hok in Hres. injection Hres as -> ->.
    now exists tr0, {| PrefixCidr := prefix; Ip := None |}.
Qed.

(** The runs of a Create whose request carries the type Unspecified: none
    succeeds, releases an address or writes to the datastore; an acquire that
    succeeded is the last call of its run, whose result is then the error
    "given ip type is not supported"; and a run in which no acquire succeeded
    is, call for call and with the same error, the run of the same request
    without a type. *)
Lemma Create_unspecified_type_runs
  (req : IPServiceCreateRequest.t) (w : World) :
  IPServiceCreateRequest.Type_ req = Some apiv2.IP_TYPE_UNSPECIFIED ->
  let r := run (Create req) w in
  (exists err, result_of r = inl err)
  /\ Forall (fun e => is_release e = false /\ is_ds_write e = false) (trace_of r)
  /\ (forall e, In e (trace_of r) -> acquired e = true ->
        result_of r = inl type_not_supported
        /\ exists tr0, trace_of r = (tr0 ++ [e])%list
                       /\ Forall (fun e => acquired e = false) tr0)
  /\ (Forall (fun e => acquired e = false) (trace_of r) ->
        r = run (Create (IPServiceCreateRequest.set_Type None req)) w).
Proof.
  intros Htype. cbv zeta.
  rewrite !run_Create. cbv zeta.
  change (IPServiceCreateRequest.Project (IPServiceCreateRequest.set_Type None req))
    with (IPServiceCreateRequest.Project req).
  change (IPServiceCreateRequest.Network (IPServiceCreateRequest.set_Type None req))
    with (IPServiceCreateRequest.Network req).
  destruct (handle (Project_Get (IPServiceCreateRequest.Project req)) w) as [pr w1].
  destruct pr as [err | p].
  { unfold result_of, trace_of; simpl. split; [now eexists |].
    split; [now repeat constructor |]. split; [| reflexivity].
    intros e [<- | []]. discriminate. }
  destruct (handle (Network_Get (IPServiceCreateRequest.Project req)
                      (IPServiceCreateRequest.Network req)) w1) as [nr w2].
  destruct nr as [err | nw].
  { unfold result_of, trace_of; simpl. split; [now eexists |].
    split; [now repeat constructor |]. split; [| reflexivity].
    intros e [<- | [<- | []]]; discriminate. }
  change (Create_af (IPServiceCreateRequest.set_Type None req) nw) with (Create_af req nw).
  destruct (Create_af req nw) as [err | af].
  { unfold result_of, trace_of; simpl. split; [now eexists |].
    split; [now repeat constructor |]. split; [| reflexivity].
    intros e [<- | [<- | []]]; discriminate. }
  destruct (Create_foreign_network p nw).
  { unfold result_of, trace_of; simpl. split; [now eexists |].
    split; [now repeat constructor |]. split; [| reflexivity].
    intros e [<- | [<- | []]]; discriminate. }
  change (Create_allocation (IPServiceCreateRequest.set_Type None req) nw af)
    with (Create_allocation req nw af).
  pose proof (Create_allocation_trace req nw af w2) as Halloc. cbv zeta in Halloc.
  destruct (run (Create_allocation req nw af) w2) as [[ar w3] tr].
  unfold result_of, trace_of in Halloc. simpl in Halloc.
  destruct Halloc as [Hacq Hshape].
  assert (Hquiet : Forall (fun e => is_release e = false /\ is_ds_write e = false) tr).
  { eapply Forall_impl; [| exact Hacq]. intros e He. now apply acquire_is_no_write. }
  destruct ar as [err | alloc].
  - unfold result_of, trace_of; simpl. split; [now eexists |].
    split; [now repeat constructor |]. split; [| reflexivity].
    intros e [<- | [<- | Hin]]; try discriminate.
    intros He. rewrite Forall_forall in Hshape. now rewrite (Hshape e Hin) in He.
  - destruct Hshape as (tr0 & e0 & -> & He0 & Hnone).
    unfold Create_ipType. rewrite Htype.
    unfold result_of, trace_of; simpl. split; [now eexists |].
    split; [now repeat constructor |]. split.
    + intros e [<- | [<- | Hin]]; try discriminate.
      intros He. split; [reflexivity |].
      apply in_app_or in Hin. destruct Hin as [Hin | [<- | []]].
      * rewrite Forall_forall in Hnone. now rewrite (Hnone e Hin) in He.
      * exists (Ev (Project_Get (IPServiceCreateRequest.Project req)) (inr p)
                :: Ev (Network_Get (IPServiceCreateRequest.Project req)
                         (IPServiceCreateRequest.Network req)) (inr nw) :: tr0).
        split; [reflexivity |]. now repeat constructor.
    + intros Hno. exfalso.
      inversion Hno as [| ? ? _ Hno1]; subst.
      inversion Hno1 as [| ? ? _ Hno2]; subst.
      apply Forall_app in Hno2. destruct Hno2 as [_ Hlast].
      inversion Hlast as [| ? ? He _]; subst. congruence.
Qed.

(** C10: a Create whose request carries the type Unspecified never succeeds,
    never releases an address and never writes to the datastore, and the type
    is looked at only after the acquisition.  A request that passes the
    checks does acquire an address first: with a specific address, once the
    ipam has given it from the first prefix that contains it, and without
    one, once the ipam has given an address from the first prefix of the
    family (and, in general, whenever the allocation succeeds), the run is
    the two lookups and the acquires, ends with the acquire that succeeded,
    and its result is the error "given ip type is not supported": the address
    stays allocated in the ipam, nothing is released and no record is
    created.  Conversely, an acquire that succeeded is always the last call
    of the run, and a run in which no acquire succeeded is, call for call and
    with the same error, the run of the same request without a type, so it
    was not the type that refused it. *)
Theorem Create_unspecified_type_after_acquisition
  (req : IPServiceCreateRequest.t) (w : World) :
  IPServiceCreateRequest.Type_ req = Some apiv2.IP_TYPE_UNSPECIFIED ->
  let r := run (Create req) w in
  let pg := Project_Get (IPServiceCreateRequest.Project req) in
  let ng := Network_Get (IPServiceCreateRequest.Project req)
                        (IPServiceCreateRequest.Network req) in
  (exists err, result_of r = inl err)
  /\ Forall (fun e => is_release e = false /\ is_ds_write e = false) (trace_of r)
  /\ (forall e, In e (trace_of r) -> acquired e = true ->
        result_of r = inl type_not_supported
        /\ exists tr0, trace_of r = (tr0 ++ [e])%list
                       /\ Forall (fun e => acquired e = false) tr0)
  /\ (Forall (fun e => acquired e = false) (trace_of r) ->
        r = run (Create (IPServiceCreateRequest.set_Type None req)) w)
  /\ (forall p w1 nw w2 specificIP a first ip w3,
        IPServiceCreateRequest.Ip req = Some specificIP ->
        IPServiceCreateRequest.AddressFamily req = None ->
        handle pg w = (inr p, w1) ->
        handle ng w1 = (inr nw, w2) ->
        Create_foreign_network p nw = false ->
        ParseAddr specificIP = inr a ->
        find (containing a) (Network.Prefixes nw) = Some first ->
        handle (ipam_AcquireIP {| PrefixCidr := first; Ip := Some specificIP |}) w2
        = (inr ip, w3) ->
        r = (inl type_not_supported, w3,
             [Ev pg (inr p); Ev ng (inr nw);
              Ev (ipam_AcquireIP {| PrefixCidr := first; Ip := Some specificIP |}) (inr ip)]))
  /\ (forall p w1 nw w2 af first rest ip w3,
        IPServiceCreateRequest.Ip req = None ->
        handle pg w = (inr p, w1) ->
        handle ng w1 = (inr nw, w2) ->
        Create_af req nw = inr af ->
        Create_foreign_network p nw = false ->
        OfFamily (Network.Prefixes nw) af = first :: rest ->
        handle (acquire_any first) w2 = (inr ip, w3) ->
        r = (inl type_not_supported, w3,
             [Ev pg (inr p); Ev ng (inr nw); Ev (acquire_any first) (inr ip)]))
  /\ (forall p w1 nw w2 af alloc w3 tr,
        handle pg w = (inr p, w1) ->
        handle ng w1 = (inr nw, w2) ->
        Create_af req nw = inr af ->
        Create_foreign_network p nw = false ->
        run (Create_allocation req nw af) w2 = (inr alloc, w3, tr) ->
        r = (inl type_not_supported, w3, Ev pg (inr p) :: Ev ng (inr nw) :: tr)
        /\ exists tr0 rq,
             tr = (tr0 ++ [Ev (ipam_AcquireIP rq) (inr (fst alloc))])%list
             /\ PrefixCidr rq = snd alloc).
Proof.
  intros Htype. cbv zeta.
  pose proof (Create_unspecified_type_runs req w Htype) as Hruns. cbv zeta in Hruns.
  destruct Hruns as (Hfails & Hquiet & Hlast & Hsame).
  split; [exact Hfails |]. split; [exact Hquiet |]. split; [exact Hlast |].
  split; [exact Hsame |].
  assert (Hgeneral : forall p w1 nw w2 af alloc w3 tr,
             handle (Project_Get (IPServiceCreateRequest.Project req)) w = (inr p, w1) ->
             handle (Network_Get (IPServiceCreateRequest.Project req)
                       (IPServiceCreateRequest.Network req)) w1 = (inr nw, w2) ->
             Create_af req nw = inr af ->
             Create_foreign_network p nw = false ->
             run (Create_allocation req nw af) w2 = (inr alloc, w3, tr) ->
             run (Create req) w =
               (inl type_not_supported, w3,
                Ev (Project_Get (IPServiceCreateRequest.Project req)) (inr p)
                :: Ev (Network_Get (IPServiceCreateRequest.Project req)
                         (IPServiceCreateRequest.Network req)) (inr nw) :: tr)).
  { intros p w1 nw w2 af alloc w3 tr Hp Hnw Haf Hforeign Halloc.
    rewrite run_Create. cbv zeta. rewrite Hp, Hnw, Haf, Hforeign, Halloc.
    unfold Create_ipType. now rewrite Htype. }
  split; [| split].
  - intros p w1 nw w2 specificIP a first ip w3 Hip Hnoaf Hp Hnw Hforeign Hparse Hfirst Hacq.
    apply Hgeneral with (w1 := w1) (w2 := w2) (af := AddressFamily_zero) (alloc := (ip, first));
      try assumption.
    + unfold Create_af. now rewrite Hnoaf.
    + unfold Create_allocation. rewrite Hip.
      rewrite (run_AllocateSpecificIP nw specificIP w2 Hparse), Hfirst. cbv zeta.
      now rewrite Hacq.
  - intros p w1 nw w2 af first rest ip w3 Hip Hp Hnw Haf Hforeign Hof Hacq.
    apply Hgeneral with (w1 := w1) (w2 := w2) (af := af) (alloc := (ip, first));
      try assumption.
    unfold Create_allocation. rewrite Hip. unfold AllocateRandomIP. cbv zeta.
    simpl AllocateRandomIP_addressfamily. rewrite Hof. simpl.
    fold (acquire_any first). now rewrite Hacq.
  - intros p w1 nw w2 af alloc w3 tr Hp Hnw Haf Hforeign Halloc.
    split; [now apply Hgeneral with (w1 := w1) (w2 := w2) (af := af) (alloc := alloc) |].
    pose proof (Create_allocation_success_last req nw af w2 (alloc := alloc)) as Hsucc.
    cbv zeta in Hsucc. rewrite Halloc in Hsucc.
    exact (Hsucc eq_refl).
Qed.

(** ** Update *)

Lemma run_Get (scope : ProjectScope) (id : string) (w : World) :
  run (Get scope id) w =
  let (gr, w1) := handle (ds_IP_Get id) w in
  match gr with
  | inl err => (inl err, w1, [Ev (ds_IP_Get id) gr])
  | inr ip =>
      (if negb (String.eqb scope (IP.ProjectID ip))
       then inl (generic_NotFound "ip with id:%s not found" [id])
       else inr ip,
       w1, [Ev (ds_IP_Get id) gr])
  end.
Proof.
  unfold Get. rewrite run_bind_or_return, run_Do_Ret.
  destruct (handle (ds_IP_Get id) w) as [gr w1].
  destruct gr as [err | ip]; [reflexivity |].
  now destruct (negb (String.eqb scope (IP.ProjectID ip))).
Qed.

Lemma run_Update (scope : ProjectScope) (rq : IPServiceUpdateRequest.t) (w : World) :
  run (Update scope rq) w =
  let get := ds_IP_Get (IPServiceUpdateRequest.Ip rq) in
  let (gr, w1) := handle get w in
  match gr with
  | inl err => (inl err, w1, [Ev get gr])
  | inr old =>
      if negb (String.eqb scope (IP.ProjectID old))
      then (inl (generic_NotFound "ip with id:%s not found" [IPServiceUpdateRequest.Ip rq]),
            w1, [Ev get gr])
      else
        match Update_new rq old with
        | inl err => (inl err, w1, [Ev get gr])
        | inr new =>
            let (ur, w2) := handle (ds_IP_Update new old) w1 in
            (match ur with Some err => inl err | None => inr new end,
             w2, [Ev get gr; Ev (ds_IP_Update new old) ur])
        end
  end.
Proof.
  unfold Update. rewrite run_bind_or_return, run_Get. cbv zeta.
  destruct (handle (ds_IP_Get (IPServiceUpdateRequest.Ip rq)) w) as [gr w1].
  destruct gr as [err | old]; [reflexivity |].
  destruct (negb (String.eqb scope (IP.ProjectID old))); [reflexivity |].
  rewrite run_bind_or_return, run_Ret.
  destruct (Update_new rq old) as [err | new]; [reflexivity |].
  simpl. destruct (handle (ds_IP_Update new old) w1) as [ur w2].
  now destruct ur.
Qed.

(** The record Update builds differs from the old one in description, name,
    type and tags at most. *)
Lemma Update_new_identity (rq : IPServiceUpdateRequest.t) (old new : IP.t) :
  Update_new rq old = inr new -> same_identity new old.
Proof.
  unfold Update_new, same_identity.
  destruct (IPServiceUpdateRequest.Description rq), (IPServiceUpdateRequest.Name rq),
    (IPServiceUpdateRequest.Type_ rq) as [ty |];
    try (destruct (Update_type ty); [discriminate |]);
    intros [= <-]; now repeat split.
Qed.

Lemma Update_new_fields (rq : IPServiceUpdateRequest.t) (old new : IP.t) :
  Update_new rq old = inr new ->
  (IPServiceUpdateRequest.Description rq = None -> IP.Description new = IP.Description old)
  /\ (IPServiceUpdateRequest.Name rq = None -> IP.Name new = IP.Name old)
  /\ (IPServiceUpdateRequest.Type_ rq = None -> IP.Type_ new = IP.Type_ old)
  /\ IP.Tags new = IPServiceUpdateRequest.Tags rq.
Proof.
  unfold Update_new.
  destruct (IPServiceUpdateRequest.Description rq), (IPServiceUpdateRequest.Name rq),
    (IPServiceUpdateRequest.Type_ rq) as [ty |];
    try (destruct (Update_type ty); [discriminate |]);
    intros [= <-]; repeat split; intros; try reflexivity; discriminate.
Qed.

(** Every successful Update has loaded a record, has handed the datastore
    the record built from it and returns that record. *)
Lemma Update_success (scope : ProjectScope) (rq : IPServiceUpdateRequest.t)
  (w : World) :
  let r := run (Update scope rq) w in
  match result_of r with
  | inl _ => True
  | inr new =>
      exists old w1,
        handle (ds_IP_Get (IPServiceUpdateRequest.Ip rq)) w = (inr old, w1)
        /\ IP.ProjectID old = scope
        /\ Update_new rq old = inr new
        /\ trace_of r = [Ev (ds_IP_Get (IPServiceUpdateRequest.Ip rq)) (inr old);
                         Ev (ds_IP_Update new old) None]
  end.
Proof.
  cbv zeta. rewrite run_Update. cbv zeta.
  destruct (handle (ds_IP_Get (IPServiceUpdateRequest.Ip rq)) w) as [gr w1].
  destruct gr as [err | old]; [exact I |].
  destruct (String.eqb scope (IP.ProjectID old)) eqn:Hscope; [| exact I].
  apply String.eqb_eq in Hscope. simpl.
  destruct (Update_new rq old) as [err | new] eqn:Hnew; [exact I |].
  destruct (handle (ds_IP_Update new old) w1) as [ur w2].
  destruct ur as [err |]; [exact I |].
  unfold result_of, trace_of; simpl.
  exists old, w1. now repeat split.
Qed.

(** Update refuses the record it has loaded for one reason alone, the type
    Unspecified. *)
Lemma Update_new_builds (rq : IPServiceUpdateRequest.t) (old : IP.t) :
  IPServiceUpdateRequest.Type_ rq <> Some apiv2.IP_TYPE_UNSPECIFIED ->
  exists new, Update_new rq old = inr new.
Proof.
  intros Hty. unfold Update_new.
  destruct (IPServiceUpdateRequest.Description rq), (IPServiceUpdateRequest.Name rq),
    (IPServiceUpdateRequest.Type_ rq) as [[| | | n] |];
    try (now contradiction Hty); simpl; eexists; reflexivity.
Qed.

Lemma Update_new_set_fields (rq : IPServiceUpdateRequest.t) (old new : IP.t) :
  Update_new rq old = inr new ->
  (forall d, IPServiceUpdateRequest.Description rq = Some d -> IP.Description new = d)
  /\ (forall n, IPServiceUpdateRequest.Name rq = Some n -> IP.Name new = n)
  /\ (forall ty, IPServiceUpdateRequest.Type_ rq = Some ty ->
                 Update_type ty = inr (IP.Type_ new))
  /\ IP.Created new = IP.Created old
  /\ IP.Changed new = IP.Changed old.
Proof.
  unfold Update_new.
  destruct (IPServiceUpdateRequest.Description rq), (IPServiceUpdateRequest.Name rq),
    (IPServiceUpdateRequest.Type_ rq) as [ty |];
    try (destruct (Update_type ty) eqn:Hty; [discriminate |]);
    intros [= <-]; repeat split; intros; simpl; try congruence.
Qed.

(** C2: an Update whose record the datastore has, in the scope of the
    repository, and whose request does not ask for the type Unspecified,
    builds a record [new] from the loaded record [old] and hands the pair to
    the datastore's Update, the only call after the Get; when the datastore
    accepts, Update returns [new], and no successful run returns anything
    else. In [new], the description, the name and the type are those of
    [old] wherever the request leaves the field unset and those of the
    request wherever it sets it, the time stamps are those of [old], and the
    tags are the tags of the request, whatever tags [old] had: replaced, not
    merged, and so emptied by a request without tags. *)
Theorem Update_is_partial (scope : ProjectScope) (rq : IPServiceUpdateRequest.t)
  (w w1 : World) (old : IP.t) :
  handle (ds_IP_Get (IPServiceUpdateRequest.Ip rq)) w = (inr old, w1) ->
  IP.ProjectID old = scope ->
  IPServiceUpdateRequest.Type_ rq <> Some apiv2.IP_TYPE_UNSPECIFIED ->
  exists new,
    Update_new rq old = inr new
    /\ (forall ur w2,
          handle (ds_IP_Update new old) w1 = (ur, w2) ->
          run (Update scope rq) w
          = (match ur with Some err => inl err | None => inr new end,
             w2,
             [Ev (ds_IP_Get (IPServiceUpdateRequest.Ip rq)) (inr old);
              Ev (ds_IP_Update new old) ur]))
    /\ (forall new', result_of (run (Update scope rq) w) = inr new' -> new' = new)
    /\ (IPServiceUpdateRequest.Description rq = None ->
        IP.Description new = IP.Description old)
    /\ (IPServiceUpdateRequest.Name rq = None -> IP.Name new = IP.Name old)
    /\ (IPServiceUpdateRequest.Type_ rq = None -> IP.Type_ new = IP.Type_ old)
    /\ (forall d, IPServiceUpdateRequest.Description rq = Some d -> IP.Description new = d)
    /\ (forall n, IPServiceUpdateRequest.Name rq = Some n -> IP.Name new = n)
    /\ (forall ty, IPServiceUpdateRequest.Type_ rq = Some ty ->
                   Update_type ty = inr (IP.Type_ new))
    /\ IP.Created new = IP.Created old
    /\ IP.Changed new = IP.Changed old
    /\ IP.Tags new = IPServiceUpdateRequest.Tags rq.
Proof.
  intros Hget Hscope Hty.
  destruct (Update_new_builds rq old Hty) as [new Hnew].
  assert (Hrun : forall ur w2,
             handle (ds_IP_Update new old) w1 = (ur, w2) ->
             run (Update scope rq) w
             = (match ur with Some err => inl err | None => inr new end,
                w2,
                [Ev (ds_IP_Get (IPServiceUpdateRequest.Ip rq)) (inr old);
                 Ev (ds_IP_Update new old) ur])).
  { intros ur w2 Hupdate. rewrite run_Update. cbv zeta.
    rewrite Hget, Hscope, String.eqb_refl. simpl. now rewrite Hnew, Hupdate. }
  exists new. split; [exact Hnew |]. split; [exact Hrun |]. split.
  - intros new'.
    destruct (handle (ds_IP_Update new old) w1) as [ur w2] eqn:Hupdate.
    rewrite (Hrun ur w2 eq_refl). unfold result_of; simpl.
    destruct ur; [discriminate | now intros [= <-]].
  - destruct (Update_new_fields rq old Hnew) as (Hd & Hn & Ht & Htags).
    destruct (Update_new_set_fields rq old Hnew) as (Hd' & Hn' & Ht' & Hcreated & Hchanged).
    repeat split; assumption.
Qed.

(** C8: the only write a run of Update makes to the datastore is an update
    that replaces the loaded record by one with the same address, parent
    prefix, network, project and allocation uuid; and the record a successful
    Update returns is that record. *)
Theorem Update_keeps_identity (scope : ProjectScope) (rq : IPServiceUpdateRequest.t)
  (w : World) :
  let r := run (Update scope rq) w in
  Forall keeps_identity (trace_of r)
  /\ match result_of r with
     | inl _ => True
     | inr new =>
         exists old w1,
           handle (ds_IP_Get (IPServiceUpdateRequest.Ip rq)) w = (inr old, w1)
           /\ In (Ev (ds_IP_Update new old) None) (trace_of r)
           /\ same_identity new old
     end.
Proof.
  cbv zeta. rewrite run_Update. cbv zeta.
  destruct (handle (ds_IP_Get (IPServiceUpdateRequest.Ip rq)) w) as [gr w1].
  destruct gr as [err | old]; [split; [now repeat constructor | exact I] |].
  destruct (negb (String.eqb scope (IP.ProjectID old)));
    [split; [now repeat constructor | exact I] |].
  destruct (Update_new rq old) as [err | new] eqn:Hnew;
    [split; [now repeat constructor | exact I] |].
  apply Update_new_identity in Hnew.
  destruct (handle (ds_IP_Update new old) w1) as [ur w2].
  unfold result_of, trace_of; simpl. split.
  - repeat constructor; exact Hnew || apply Hnew.
  - destruct ur as [err |]; [exact I |].
    exists old, w1. split; [reflexivity |]. split; [| exact Hnew]. right. now left.
Qed.

(** ** The admin List *)

Lemma admin_List_loop_filter (resp : list IP.t) :
  forall res : list ApiIP.t,
  admin_List_loop resp res =
  inr (res ++ map ConvertToProto_ip
                (filter (fun ip => negb (has_machine_tag (IP.Tags ip))) resp))%list.
Proof.
  induction resp as [| ip rest IH]; intros res; simpl.
  - now rewrite app_nil_r.
  - unfold has_machine_tag at 1.
    destruct (TagMap_Value (NewTagMap (IP.Tags ip)) tag_MachineID) as [v |]; simpl.
    + apply IH.
    + rewrite IH, <- app_assoc. reflexivity.
Qed.

Lemma ListRequest_copy (req : IPServiceListRequest.t) :
  {| IPServiceListRequest.Ip := IPServiceListRequest.Ip req;
     IPServiceListRequest.Network := IPServiceListRequest.Network req;
     IPServiceListRequest.Project := IPServiceListRequest.Project req;
     IPServiceListRequest.Name := IPServiceListRequest.Name req;
     IPServiceListRequest.Uuid := IPServiceListRequest.Uuid req;
     IPServiceListRequest.MachineId := IPServiceListRequest.MachineId req;
     IPServiceListRequest.ParentPrefixCidr := IPServiceListRequest.ParentPrefixCidr req;
     IPServiceListRequest.Tags := IPServiceListRequest.Tags req;
     IPServiceListRequest.Type_ := IPServiceListRequest.Type_ req;
     IPServiceListRequest.AddressFamily := IPServiceListRequest.AddressFamily req |} = req.
Proof. now destruct req. Qed.

(** C9: whatever the filter of the request and whatever the datastore answers
    to it, no record of the admin List's result carries the machine tag: the
    result is the datastore's answer, in its order, without the records that
    carry the tag, each converted to the wire record (which has the tags of
    the record it comes from). *)
Theorem admin_List_hides_machine_ips (req : IPServiceListRequest.t) (w : World) :
  let r := run (admin_List req) w in
  match result_of r with
  | inl err => fst (handle (ds_IP_List req) w) = inl err
  | inr ips =>
      Forall (fun ip => has_machine_tag (ApiIP.Tags ip) = false) ips
      /\ exists records,
           fst (handle (ds_IP_List req) w) = inr records
           /\ ips = map ConvertToProto_ip
                      (filter (fun ip => negb (has_machine_tag (IP.Tags ip))) records)
  end.
Proof.
  cbv zeta. unfold admin_List, List. rewrite ListRequest_copy.
  rewrite !run_bind_or_return, run_Do_Ret.
  destruct (handle (ds_IP_List req) w) as [lr w1].
  destruct lr as [err | records]; [reflexivity |].
  rewrite !run_Ret. unfold result_of; simpl.
  rewrite admin_List_loop_filter. simpl. split.
  - apply Forall_forall. intros ip Hin.
    apply in_map_iff in Hin. destruct Hin as (rec & <- & Hin).
    apply filter_In in Hin. destruct Hin as [_ Htag].
    simpl. now apply negb_true_iff in Htag.
  - now exists records.
Qed.

(** ** Delete *)

Lemma run_Delete (scope : ProjectScope) (ip : IP.t) (w : World) :
  run (Delete scope ip) w =
  let get := ds_IP_Get (GetID ip) in
  let (gr, w1) := handle get w in
  match gr with
  | inl err => (inl err, w1, [Ev get gr])
  | inr rec =>
      if negb (String.eqb scope (IP.ProjectID rec))
      then (inl (generic_NotFound "ip with id:%s not found" [GetID ip]), w1, [Ev get gr])
      else
        let rel := ipam_ReleaseIP {| Release_Ip := IP.IPAddress rec;
                                     Release_PrefixCidr := IP.ParentPrefixCidr rec |} in
        let (rr, w2) := handle rel w1 in
        match Delete_release_error rr with
        | Some err => (inl err, w2, [Ev get gr; Ev rel rr])
        | None =>
            let (dr, w3) := handle (ds_IP_Delete rec) w2 in
            (match dr with Some err => inl err | None => inr rec end,
             w3, [Ev get gr; Ev rel rr; Ev (ds_IP_Delete rec) dr])
        end
  end.
Proof.
  unfold Delete. rewrite run_bind_or_return, run_Get. cbv zeta.
  destruct (handle (ds_IP_Get (GetID ip)) w) as [gr w1].
  destruct gr as [err | rec]; [reflexivity |].
  destruct (negb (String.eqb scope (IP.ProjectID rec))); [reflexivity |].
  simpl.
  destruct (handle (ipam_ReleaseIP {| Release_Ip := IP.IPAddress rec;
                                      Release_PrefixCidr := IP.ParentPrefixCidr rec |}) w1)
    as [rr w2].
  destruct (Delete_release_error rr) as [err |]; [reflexivity |].
  simpl. destruct (handle (ds_IP_Delete rec) w2) as [dr w3].
  now destruct dr.
Qed.

(** What Delete does on a release error that carries a connect code: on
    NotFound it goes on and deletes the record, on any other code it stops
    with that error before the datastore is touched. *)
Lemma Delete_coded_release_error (scope : ProjectScope) (ip rec : IP.t)
  (w w1 w2 : World) (err : error) (code : Code) :
  let rel := ipam_ReleaseIP {| Release_Ip := IP.IPAddress rec;
                               Release_PrefixCidr := IP.ParentPrefixCidr rec |} in
  handle (ds_IP_Get (GetID ip)) w = (inr rec, w1) ->
  String.eqb scope (IP.ProjectID rec) = true ->
  handle rel w1 = (Some err, w2) ->
  errors_As_connect err = Some code ->
  (code = CodeNotFound ->
   trace_of (run (Delete scope ip) w) =
     [Ev (ds_IP_Get (GetID ip)) (inr rec); Ev rel (Some err);
      Ev (ds_IP_Delete rec) (fst (handle (ds_IP_Delete rec) w2))])
  /\ (code <> CodeNotFound ->
      run (Delete scope ip) w =
        (inl err, w2, [Ev (ds_IP_Get (GetID ip)) (inr rec); Ev rel (Some err)])).
Proof.
  cbv zeta. intros Hget Hscope Hrel Hcode.
  rewrite run_Delete. cbv zeta. rewrite Hget, Hscope. simpl negb. cbv iota.
  rewrite Hrel. unfold Delete_release_error. rewrite Hcode.
  destruct (Code_eq_dec code CodeNotFound) as [Hnf | Hother]; split; intros Hc;
    try contradiction; [| reflexivity].
  now destruct (handle (ds_IP_Delete rec) w2) as [dr w3].
Qed.

(** C3, where the code parts from it: when the release fails with an error
    that is no connect error (errors.As finds none on its chain), Delete does
    not stop: it goes on to the datastore and deletes the record, and if the
    datastore succeeds it returns the record and no error. *)
Theorem Delete_uncoded_release_error_deletes (scope : ProjectScope) (ip rec : IP.t)
  (w w1 w2 : World) (err : error) :
  let rel := ipam_ReleaseIP {| Release_Ip := IP.IPAddress rec;
                               Release_PrefixCidr := IP.ParentPrefixCidr rec |} in
  handle (ds_IP_Get (GetID ip)) w = (inr rec, w1) ->
  String.eqb scope (IP.ProjectID rec) = true ->
  handle rel w1 = (Some err, w2) ->
  errors_As_connect err = None ->
  let (dr, w3) := handle (ds_IP_Delete rec) w2 in
  run (Delete scope ip) w =
    (match dr with Some derr => inl derr | None => inr rec end, w3,
     [Ev (ds_IP_Get (GetID ip)) (inr rec); Ev rel (Some err); Ev (ds_IP_Delete rec) dr]).
Proof.
  cbv zeta. intros Hget Hscope Hrel Hcode.
  rewrite run_Delete. cbv zeta. rewrite Hget, Hscope. simpl negb. cbv iota.
  rewrite Hrel. unfold Delete_release_error. rewrite Hcode.
  now destruct (handle (ds_IP_Delete rec) w2) as [dr w3].
Qed.

(** ** The family of a random allocation *)

(** AllocateRandomIP, handed a nil pointer, settles on the network's single
    family, and on IPv4 when the network has none or several. *)
Lemma AllocateRandomIP_addressfamily_nil (parent : Network.t) :
  AllocateRandomIP_addressfamily parent None =
  match Network.AddressFamilies parent with
  | [single] => single
  | _ => IPv4AddressFamily
  end.
Proof. reflexivity. Qed.

(** C1, where the code parts from it: for a request with neither address nor
    family, Create leaves its local [af] at the zero value of the type and
    hands AllocateRandomIP a pointer to it; the pointer is never nil, so the
    family AllocateRandomIP settles on is that zero value, for every network:
    neither IPv4 nor IPv6, and in particular not the network's single family.
    The acquisition then runs over what OfFamily selects for the zero value. *)
Theorem Create_random_family_is_zero_value
  (req : IPServiceCreateRequest.t) (nw : Network.t) :
  IPServiceCreateRequest.Ip req = None ->
  IPServiceCreateRequest.AddressFamily req = None ->
  Create_af req nw = inr AddressFamily_zero
  /\ Create_allocation req nw AddressFamily_zero
     = AllocateRandomIP nw (Some AddressFamily_zero)
  /\ AllocateRandomIP_addressfamily nw (Some AddressFamily_zero) = AddressFamily_zero
  /\ AllocateRandomIP nw (Some AddressFamily_zero)
     = AllocateRandomIP_loop (OfFamily (Network.Prefixes nw) AddressFamily_zero)
  /\ AddressFamily_zero <> IPv4AddressFamily
  /\ AddressFamily_zero <> IPv6AddressFamily.
Proof.
  intros Hip Haf. unfold Create_af, Create_allocation. rewrite Hip, Haf.
  repeat split; discriminate.
Qed.

End Properties.

(** * The theorems at work

    Each theorem above that rests on assumptions is applied here to a request
    and a state of the model, with every assumption checked by computation;
    and where a claim of the specification fails, the run that shows it. *)

Section Scenarios.

Import scenario.

#[local] Existing Instance model_Netip.
#[local] Existing Instance model_PrefixesOfFamily.
#[local] Existing Instance model_TagLib.
#[local] Existing Instance model_Validate.
#[local] Existing Instance model_IPEntity.
#[local] Existing Instance model_Backends.

(** C1: a request without address and family on the IPv6-only network n6:
    the family Create settles on is the zero value, not IPv6. *)
Lemma Create_random_family_is_zero_value_witness :
  Create_af (create "n6" "p1" None None None) n6 = inr AddressFamily_zero
  /\ Create_allocation (create "n6" "p1" None None None) n6 AddressFamily_zero
     = AllocateRandomIP n6 (Some AddressFamily_zero)
  /\ AllocateRandomIP_addressfamily n6 (Some AddressFamily_zero) = AddressFamily_zero
  /\ AllocateRandomIP n6 (Some AddressFamily_zero)
     = AllocateRandomIP_loop (OfFamily (Network.Prefixes n6) AddressFamily_zero)
  /\ AddressFamily_zero <> IPv4AddressFamily
  /\ AddressFamily_zero <> IPv6AddressFamily.
Proof.
  apply (Create_random_family_is_zero_value (create "n6" "p1" None None None) n6);
    reflexivity.
Defined.

(** C1, seen from outside: on the network n46, which has both families and
    lists its IPv6 prefix first, a Create without address and family is given
    an IPv6 address, where AllocateRandomIP with a nil pointer, which settles
    on IPv4, gives an address of the IPv4 prefix. *)
Example Create_random_dual_stack :
  option_map (fun ip => (IP.IPAddress ip, IP.ParentPrefixCidr ip))
    (match result_of (run (Create (create "n46" "p1" None None None)) fresh) with
     | inr ip => Some ip
     | inl _ => None
     end)
  = Some ("2001:db8::1", "2001:db8::/64")
  /\ result_of (run (AllocateRandomIP n46 None) fresh) = inr ("10.0.1.1", "10.0.1.0/24").
Proof. split; vm_compute; reflexivity. Qed.

(** C3: Delete of the tenant address when the release fails on the transport,
    with an error that is no connect error. *)
Lemma Delete_uncoded_release_error_deletes_witness :
  let rel := ipam_ReleaseIP {| Release_Ip := "10.0.0.1"; Release_PrefixCidr := "10.0.0.0/24" |} in
  let (dr, w3) := handle (ds_IP_Delete tenant_ip) release_broken in
  run (Delete "p1" tenant_ip) release_broken =
    (match dr with Some derr => inl derr | None => inr tenant_ip end, w3,
     [Ev (ds_IP_Get "10.0.0.1") (inr tenant_ip);
      Ev rel (Some (fmt_Errorf "dial tcp: connection refused" []));
      Ev (ds_IP_Delete tenant_ip) dr]).
Proof.
  apply Delete_uncoded_release_error_deletes
    with (w1 := release_broken) (w2 := release_broken); reflexivity.
Defined.

(** C3, seen from outside: the release failed, the address is still
    allocated in the ipam, and yet Delete reports success and the record is
    gone from the datastore. *)
Example Delete_after_failed_release :
  let r := run (Delete "p1" tenant_ip) release_broken in
  result_of r = inr tenant_ip
  /\ model.stored (world_of r) "10.0.0.1" = None
  /\ model.in_use (world_of r) "10.0.0.0/24" "10.0.0.1" = true
  /\ existsb is_release (trace_of r) = true
  /\ errors_As_connect (fmt_Errorf "dial tcp: connection refused" []) = None.
Proof. cbv zeta. repeat split; vm_compute; reflexivity. Qed.

(** C4: project p2 asks for an address of [child], the private network of p1. *)
Lemma Create_foreign_network_rejected_witness :
  exists err,
    run (Create (create "child" "p2" None None None)) fresh =
      (inl err, fresh,
       [Ev (Project_Get "p2") (inr (Project.mk "p2")); Ev (Network_Get "p2" "child") (inr child)])
    /\ has_code CodeInvalidArgument err
    /\ forallb (fun e => negb (is_ipam e))
         (trace_of (run (Create (create "child" "p2" None None None)) fresh)) = true.
Proof.
  apply Create_foreign_network_rejected with (w1 := fresh);
    [reflexivity | reflexivity | reflexivity | discriminate | discriminate].
Defined.

(** C4 as the specification has it fails on that request: the network is
    unshared, has a parent and belongs to p1, Create for p2 fails, and the
    error has code InvalidArgument, so it is no PermissionDenied error. *)
Lemma Create_foreign_network_is_not_PermissionDenied :
  (Network.Shared child = false
   /\ Network.ParentNetworkID child <> EmptyString
   /\ Network.ProjectID child <> "p2")
  /\ exists err,
       result_of (run (Create (create "child" "p2" None None None)) fresh) = inl err
       /\ has_code CodeInvalidArgument err
       /\ ~ has_code CodePermissionDenied err.
Proof.
  split; [repeat split; discriminate |].
  eexists. split; [vm_compute; reflexivity |].
  split; [reflexivity | discriminate].
Qed.


(** C6: the address 10.0.9.5 lies in no prefix of n4. *)
Lemma Create_specific_not_contained_witness :
  let not_contained :=
    fmt_Errorf "specific ip not contained in any of the defined prefixes" [] in
  (forall w : model.world, run (AllocateSpecificIP n4 "10.0.9.5") w = (inl not_contained, w, []))
  /\ errors_As_connect not_contained = None
  /\ (forall (req : IPServiceCreateRequest.t) (w w1 w2 : model.world) (p : Project.t),
        IPServiceCreateRequest.Ip req = Some "10.0.9.5" ->
        handle (Project_Get (IPServiceCreateRequest.Project req)) w = (inr p, w1) ->
        handle (Network_Get (IPServiceCreateRequest.Project req)
                            (IPServiceCreateRequest.Network req)) w1 = (inr n4, w2) ->
        exists err,
          run (Create req) w =
            (inl err, w2,
             [Ev (Project_Get (IPServiceCreateRequest.Project req)) (inr p);
              Ev (Network_Get (IPServiceCreateRequest.Project req)
                              (IPServiceCreateRequest.Network req)) (inr n4)])
          /\ (has_code CodeInvalidArgument err
              \/ err = connect_NewError CodeInternal not_contained)
          /\ (IPServiceCreateRequest.AddressFamily req = None ->
              Create_foreign_network p n4 = false ->
              err = connect_NewError CodeInternal not_contained)).
Proof.
  apply Create_specific_not_contained
    with (a := {| model.is6 := false; model.bits := 167774469 |}).
  - reflexivity.
  - intros prefix [<- | []]. reflexivity.
Defined.

(** C6 as the specification has it fails on that address: it parses, no
    prefix of n4 contains it, and Create fails with code Internal, so with no
    InvalidArgument error; the error of AllocateSpecificIP itself has no code. *)
Lemma Create_specific_not_contained_is_not_InvalidArgument :
  (ParseAddr "10.0.9.5" = inr {| model.is6 := false; model.bits := 167774469 |}
   /\ forallb (fun p => negb (containing {| model.is6 := false; model.bits := 167774469 |} p))
        (Network.Prefixes n4) = true)
  /\ (exists err,
        result_of (run (AllocateSpecificIP n4 "10.0.9.5") fresh) = inl err
        /\ errors_As_connect err = None)
  /\ exists err,
       result_of (run (Create (create "n4" "p1" (Some "10.0.9.5") None None)) fresh) = inl err
       /\ has_code CodeInternal err
       /\ ~ has_code CodeInvalidArgument err.
Proof.
  split; [split; reflexivity |]. split.
  - eexists. split; [vm_compute; reflexivity | reflexivity].
  - eexists. split; [vm_compute; reflexivity |].
    split; [reflexivity | discriminate].
Qed.

(** C7: a random IPv4 address of n4 is asked for while both addresses of its
    prefix are allocated. *)
Lemma AllocateRandomIP_iteration_witness :
  errors_As_connect no_ips_left = None
  /\ iterates (OfFamily (Network.Prefixes n4) IPv4AddressFamily)
       (run (B := model_Backends) (AllocateRandomIP n4 (Some IPv4AddressFamily)) populated)
  /\ (IPv4AddressFamily = IPv4AddressFamily \/ IPv4AddressFamily = IPv6AddressFamily ->
      OfFamily (Network.Prefixes n4) IPv4AddressFamily
      = filter (has_family IPv4AddressFamily) (Network.Prefixes n4)).
Proof.
  exact (AllocateRandomIP_iteration (B := model_Backends) n4 (Some IPv4AddressFamily) populated).
Defined.

(** C7 as the specification has it fails there: the one prefix of the family
    is asked and answers NotFound, and the allocation fails with an error
    that has no code, so with no ResourceExhausted error; Create hands it on
    under code Internal. *)
Lemma AllocateRandomIP_exhausted_is_not_ResourceExhausted :
  (map random_acquire_of (trace_of (run (AllocateRandomIP n4 (Some IPv4AddressFamily)) populated))
   = [Some "10.0.0.0/24"]
   /\ forallb exhausted
        (trace_of (run (AllocateRandomIP n4 (Some IPv4AddressFamily)) populated)) = true)
  /\ (exists err,
        result_of (run (AllocateRandomIP n4 (Some IPv4AddressFamily)) populated) = inl err
        /\ errors_As_connect err = None
        /\ ~ has_code CodeResourceExhausted err)
  /\ exists err,
       result_of (run (Create (create "n4" "p1" None (Some apiv2.IP_ADDRESS_FAMILY_V4) None))
                    populated) = inl err
       /\ has_code CodeInternal err
       /\ ~ has_code CodeResourceExhausted err.
Proof.
  split; [split; vm_compute; reflexivity |]. split.
  - eexists. split; [vm_compute; reflexivity |]. split; [reflexivity | discriminate].
  - eexists. split; [vm_compute; reflexivity |]. split; [reflexivity | discriminate].
Qed.

(** C10: a Create of type Unspecified for the free address 10.0.0.7 of n4,
    and one for any IPv4 address of n4 while nothing is allocated: each
    acquires its address, and is then refused. *)
Lemma Create_unspecified_type_after_acquisition_witness :
  run (Create (create "n4" "p1" (Some "10.0.0.7") None (Some apiv2.IP_TYPE_UNSPECIFIED)))
    populated
  = (inl type_not_supported,
     model.with_allocated (("10.0.0.0/24", "10.0.0.7") :: model.allocated populated) populated,
     [Ev (Project_Get "p1") (inr (Project.mk "p1"));
      Ev (Network_Get "p1" "n4") (inr n4);
      Ev (ipam_AcquireIP {| PrefixCidr := "10.0.0.0/24"; Ip := Some "10.0.0.7" |})
         (inr "10.0.0.7")])
  /\ run (Create (create "n4" "p1" None (Some apiv2.IP_ADDRESS_FAMILY_V4)
                    (Some apiv2.IP_TYPE_UNSPECIFIED))) fresh
     = (inl type_not_supported,
        model.with_allocated [("10.0.0.0/24", "10.0.0.1")] fresh,
        [Ev (Project_Get "p1") (inr (Project.mk "p1"));
         Ev (Network_Get "p1" "n4") (inr n4);
         Ev (acquire_any "10.0.0.0/24") (inr "10.0.0.1")]).
Proof.
  split.
  - destruct (Create_unspecified_type_after_acquisition (B := model_Backends)
                (create "n4" "p1" (Some "10.0.0.7") None (Some apiv2.IP_TYPE_UNSPECIFIED))
                populated eq_refl) as (_ & _ & _ & _ & Hspecific & _).
    apply Hspecific
      with (w1 := populated) (w2 := populated) (specificIP := "10.0.0.7")
           (a := {| model.is6 := false; model.bits := 167772167 |});
      reflexivity.
  - destruct (Create_unspecified_type_after_acquisition (B := model_Backends)
                (create "n4" "p1" None (Some apiv2.IP_ADDRESS_FAMILY_V4)
                   (Some apiv2.IP_TYPE_UNSPECIFIED))
                fresh eq_refl) as (_ & _ & _ & _ & _ & Hrandom & _).
    apply Hrandom
      with (w1 := fresh) (w2 := fresh) (af := IPv4AddressFamily) (rest := []);
      reflexivity.
Defined.

(** C10, seen from outside: the Create is refused with the type error, the
    address it acquired is in use in the ipam afterwards, and the datastore
    holds no record of it. *)
Example Create_unspecified_type_leaks :
  let req := create "n4" "p1" (Some "10.0.0.7") None (Some apiv2.IP_TYPE_UNSPECIFIED) in
  let r := run (Create req) populated in
  result_of r = inl type_not_supported
  /\ model.in_use populated "10.0.0.0/24" "10.0.0.7" = false
  /\ model.in_use (world_of r) "10.0.0.0/24" "10.0.0.7" = true
  /\ model.stored (world_of r) "10.0.0.7" = None
  /\ model.store (world_of r) = model.store populated
  /\ existsb acquired (trace_of r) = true.
Proof. cbv zeta. repeat split; vm_compute; reflexivity. Qed.

(** C2: an Update of the tenant's address that sets the name and two tags:
    the datastore holds the record with the new name and the two tags in
    place of the one tag it had, description and type as before. *)
Lemma Update_is_partial_witness :
  let rq := IPServiceUpdateRequest.mk "10.0.0.1" "p1" (Some "api") None None
              ["color=blue"; "tier=1"] in
  let new := IP.set_Tags ["color=blue"; "tier=1"] (IP.set_Name "api" tenant_ip) in
  IP.Tags tenant_ip = ["color=red"]
  /\ run (Update "p1" rq) populated
     = (inr new,
        model.with_store [new; machine_ip] populated,
        [Ev (ds_IP_Get "10.0.0.1") (inr tenant_ip); Ev (ds_IP_Update new tenant_ip) None])
  /\ IP.Description new = "frontend"
  /\ IP.Type_ new = Ephemeral.
Proof.
  cbv zeta. split; [reflexivity |]. split; [| split; reflexivity].
  destruct (Update_is_partial (B := model_Backends) (scope := "p1")
              (IPServiceUpdateRequest.mk "10.0.0.1" "p1" (Some "api") None None
                 ["color=blue"; "tier=1"])
              populated (w1 := populated) (old := tenant_ip)
              eq_refl eq_refl ltac:(discriminate))
    as (new & Hnew & Hrun & _).
  injection Hnew as <-.
  exact (Hrun None
           (model.with_store
              [IP.set_Tags ["color=blue"; "tier=1"] (IP.set_Name "api" tenant_ip);
               machine_ip] populated)
           eq_refl).
Defined.

(** C2 and C8 on a run: an Update of the description alone keeps the name,
    the type and the identity of the stored record, and, the request having
    no tags, leaves it without tags. *)
Example Update_description_only :
  let rq := IPServiceUpdateRequest.mk "10.0.0.1" "p1" None (Some "backend") None [] in
  let r := run (Update "p1" rq) populated in
  model.stored (world_of r) "10.0.0.1"
  = Some (IP.set_Tags [] (IP.set_Description "backend" tenant_ip))
  /\ result_of r = inr (IP.set_Tags [] (IP.set_Description "backend" tenant_ip))
  /\ IP.Tags tenant_ip = ["color=red"].
Proof. cbv zeta. repeat split; vm_compute; reflexivity. Qed.

(** C9 on a run: of the tenant's and the machine's address of p1, the admin
    List returns the tenant's alone. *)
Example admin_List_of_p1 :
  model.store populated = [tenant_ip; machine_ip]
  /\ result_of (run (admin_List list_all) populated) = inr [ConvertToProto_ip tenant_ip].
Proof. split; vm_compute; reflexivity. Qed.

End Scenarios.

(** * Further properties

    What the code shows beyond the claims of the specification: how Get
    scopes, what Create checks before it turns to the ipam and what it hands
    to the datastore, which calls each operation can make at all, and how the
    operations compose with ConvertToProto. *)

Section Further.

Context {N : Netip} {OF : PrefixesOfFamily} {TL : TagLib} {V : Validate}
  {E : IPEntity} {B : Backends}.

(** ** Get *)

(** Get makes one call, the datastore's Get, and hands its error on as it
    is; a record comes back only if its project is the scope of the
    repository, and a record of another project is answered with the
    datastore's NotFound kind, as if it were not there. *)
Theorem Get_is_scoped (scope : ProjectScope) (id : string) (w : World) :
  let r := run (Get scope id) w in
  let answer := fst (handle (ds_IP_Get id) w) in
  trace_of r = [Ev (ds_IP_Get id) answer]
  /\ world_of r = snd (handle (ds_IP_Get id) w)
  /\ match answer with
     | inl err => result_of r = inl err
     | inr ip =>
         (IP.ProjectID ip = scope -> result_of r = inr ip)
         /\ (IP.ProjectID ip <> scope ->
             result_of r = inl (generic_NotFound "ip with id:%s not found" [id]))
     end
  /\ (forall ip, result_of r = inr ip -> IP.ProjectID ip = scope /\ answer = inr ip).
Proof.
  cbv zeta. rewrite run_Get.
  destruct (handle (ds_IP_Get id) w) as [gr w1]. simpl fst; simpl snd.
  destruct gr as [err | ip]; unfold trace_of, world_of, result_of; simpl.
  - repeat split; try discriminate.
  - destruct (String.eqb scope (IP.ProjectID ip)) eqn:Hscope; simpl.
    + apply String.eqb_eq in Hscope.
      repeat split; try congruence; intros ip' [= <-]; congruence.
    + apply String.eqb_neq in Hscope. repeat split; try congruence; discriminate.
Qed.

(** ** Create, before the acquisition *)

(** A project or a network that does not resolve makes Create fail with code
    Internal around the lookup's own error, whatever kind that error has (a
    NotFound of the lookup included), after the lookups alone. *)
Theorem Create_lookup_failure_is_Internal (req : IPServiceCreateRequest.t) (w : World) :
  let pg := Project_Get (IPServiceCreateRequest.Project req) in
  let ng := Network_Get (IPServiceCreateRequest.Project req)
                        (IPServiceCreateRequest.Network req) in
  (forall err w1,
      handle pg w = (inl err, w1) ->
      run (Create req) w = (inl (connect_NewError CodeInternal err), w1, [Ev pg (inl err)]))
  /\ (forall p w1 err w2,
        handle pg w = (inr p, w1) ->
        handle ng w1 = (inl err, w2) ->
        run (Create req) w =
          (inl (connect_NewError CodeInternal err), w2, [Ev pg (inr p); Ev ng (inl err)])).
Proof.
  cbv zeta. split.
  - intros err w1 Hp. rewrite run_Create. cbv zeta. now rewrite Hp.
  - intros p w1 err w2 Hp Hnw. rewrite run_Create. cbv zeta. now rewrite Hp, Hnw.
Qed.

(** The family a request names is accepted only if the validation passes it,
    it is V4 or V6 (or a number that is no value of the enum, which leaves the
    local at its zero value), the family it stands for is among the families
    of the network, and the request names no address. *)
Theorem Create_af_accepts (req : IPServiceCreateRequest.t) (nw : Network.t)
  (f : apiv2.IPAddressFamily) (af : AddressFamily) :
  IPServiceCreateRequest.AddressFamily req = Some f ->
  Create_af req nw = inr af ->
  ValidateAddressFamily f = None
  /\ In af (Network.AddressFamilies nw)
  /\ IPServiceCreateRequest.Ip req = None
  /\ match f with
     | apiv2.IP_ADDRESS_FAMILY_V4 => af = IPv4AddressFamily
     | apiv2.IP_ADDRESS_FAMILY_V6 => af = IPv6AddressFamily
     | apiv2.IP_ADDRESS_FAMILY_UNSPECIFIED => False
     | apiv2.IP_ADDRESS_FAMILY_undefined _ => af = AddressFamily_zero
     end.
Proof.
  intros Hf. unfold Create_af. rewrite Hf.
  destruct (ValidateAddressFamily f) as [verr |]; [discriminate |].
  assert (Hcheck : forall a : AddressFamily,
             (if negb (existsb (String.eqb a) (Network.AddressFamilies nw))
              then inl (connect_NewError CodeInvalidArgument
                          (fmt_Errorf "there is no prefix for the given addressfamily:%s present in network:%s %s"
                             (a :: IPServiceCreateRequest.Network req :: Network.AddressFamilies nw)))
              else
                match IPServiceCreateRequest.Ip req with
                | Some _ =>
                    inl (connect_NewError CodeInvalidArgument
                           (fmt_Errorf "it is not possible to specify specificIP and addressfamily" []))
                | None => inr a
                end) = inr af ->
             a = af /\ In af (Network.AddressFamilies nw)
             /\ IPServiceCreateRequest.Ip req = None).
  { intros a. destruct (existsb (String.eqb a) (Network.AddressFamilies nw)) eqn:Hin;
      simpl; [| discriminate].
    destruct (IPServiceCreateRequest.Ip req); [discriminate |].
    intros [= <-]. apply existsb_exists in Hin. destruct Hin as (x & Hx & Heq).
    apply String.eqb_eq in Heq. subst x. now repeat split. }
  destruct f; cbv zeta; try discriminate; intros Haf;
    apply Hcheck in Haf; destruct Haf as (<- & Hin & Hip); now repeat split.
Qed.

(** A request that names both an address and a family is refused with code
    InvalidArgument once project and network have resolved, and the ipam is
    not called. *)
Theorem Create_address_and_family_refused
  (req : IPServiceCreateRequest.t) (w w1 w2 : World) (p : Project.t) (nw : Network.t)
  (f : apiv2.IPAddressFamily) (ip : string) :
  IPServiceCreateRequest.AddressFamily req = Some f ->
  IPServiceCreateRequest.Ip req = Some ip ->
  handle (Project_Get (IPServiceCreateRequest.Project req)) w = (inr p, w1) ->
  handle (Network_Get (IPServiceCreateRequest.Project req)
                      (IPServiceCreateRequest.Network req)) w1 = (inr nw, w2) ->
  exists err,
    run (Create req) w =
      (inl err, w2,
       [Ev (Project_Get (IPServiceCreateRequest.Project req)) (inr p);
        Ev (Network_Get (IPServiceCreateRequest.Project req)
                        (IPServiceCreateRequest.Network req)) (inr nw)])
    /\ has_code CodeInvalidArgument err.
Proof.
  intros Hf Hip Hp Hnw. rewrite run_Create. cbv zeta. rewrite Hp, Hnw.
  destruct (Create_af req nw) as [err | af] eqn:Haf.
  - exists err. split; [reflexivity |].
    now apply Create_af_error with (req := req) (nw := nw).
  - exfalso. unfold Create_af in Haf. rewrite Hf, Hip in Haf.
    destruct (ValidateAddressFamily f); [discriminate |].
    destruct f; cbv zeta in Haf; try discriminate;
      match type of Haf with
      | context [existsb ?g ?l] => destruct (existsb g l)
      end; discriminate.
Qed.

(** ** The two allocations *)

(** The shape of a run of AllocateSpecificIP: no call and an error, or one
    call, for the first prefix of the network that contains the literal. *)
Lemma AllocateSpecificIP_shape (parent : Network.t) (specificIP : string) (w : World) :
  let r := run (AllocateSpecificIP parent specificIP) w in
  (trace_of r = [] /\ world_of r = w /\ exists err, result_of r = inl err)
  \/ (exists a prefix,
         let acquire := ipam_AcquireIP {| PrefixCidr := prefix; Ip := Some specificIP |} in
         ParseAddr specificIP = inr a
         /\ find (containing a) (Network.Prefixes parent) = Some prefix
         /\ trace_of r = [Ev acquire (fst (handle acquire w))]
         /\ world_of r = snd (handle acquire w)
         /\ result_of r = specific_answer prefix (fst (handle acquire w))).
Proof.
  cbv zeta.
  destruct (ParseAddr specificIP) as [perr | a] eqn:Hparse.
  - left. unfold AllocateSpecificIP. rewrite Hparse. simpl. repeat split. now eexists.
  - rewrite (run_AllocateSpecificIP parent specificIP w Hparse).
    destruct (find (containing a) (Network.Prefixes parent)) as [prefix |] eqn:Hfind.
    + right. exists a, prefix. cbv zeta.
      destruct (handle (ipam_AcquireIP {| PrefixCidr := prefix; Ip := Some specificIP |}) w)
        as [resp w1].
      now repeat split.
    + left. repeat split. now eexists.
Qed.

Lemma specific_answer_success (prefix prefix' : Prefix) (resp : error + string) (ip : string) :
  specific_answer prefix resp = inr (ip, prefix') -> resp = inr ip /\ prefix' = prefix.
Proof.
  unfold specific_answer. destruct resp as [err | ip0].
  - destruct (errors_As_connect err) as [code |];
      [destruct (Code_eq_dec code CodeAlreadyExists) |]; discriminate.
  - intros [= -> ->]. now split.
Qed.

(** AllocateSpecificIP calls the ipam at most once, and then for exactly the
    literal it was given, on the first prefix of the network that contains
    it: the one [find] returns, with no containing prefix listed before it,
    a prefix of the literal's own family.  A literal that parses and that
    some prefix contains costs exactly that call, whatever the ipam answers;
    a literal that does not parse or that no prefix contains costs no call.
    When it succeeds, the address it returns is the one the ipam answered
    with and the prefix is the one it asked for. *)
Theorem AllocateSpecificIP_asks_once (parent : Network.t) (specificIP : string)
  (w : World) :
  let r := run (AllocateSpecificIP parent specificIP) w in
  (List.length (trace_of r) <= 1)%nat
  /\ (forall e, In e (trace_of r) ->
        exists a prefix resp,
          e = Ev (ipam_AcquireIP {| PrefixCidr := prefix; Ip := Some specificIP |}) resp
          /\ ParseAddr specificIP = inr a
          /\ In prefix (Network.Prefixes parent)
          /\ containing a prefix = true
          /\ prefix_family prefix = Some (family_of a)
          /\ find (containing a) (Network.Prefixes parent) = Some prefix
          /\ exists before after,
               Network.Prefixes parent = (before ++ prefix :: after)%list
               /\ Forall (fun q => containing a q = false) before)
  /\ (forall perr, ParseAddr specificIP = inl perr ->
        r = (inl (fmt_Errorf_w "unable to parse specific ip: %w" perr), w, []))
  /\ (forall ip prefix,
        result_of r = inr (ip, prefix) ->
        trace_of r
        = [Ev (ipam_AcquireIP {| PrefixCidr := prefix; Ip := Some specificIP |}) (inr ip)])
  /\ (forall a before first after,
        ParseAddr specificIP = inr a ->
        Network.Prefixes parent = (before ++ first :: after)%list ->
        Forall (fun q => containing a q = false) before ->
        containing a first = true ->
        let acquire := ipam_AcquireIP {| PrefixCidr := first; Ip := Some specificIP |} in
        r = (specific_answer first (fst (handle acquire w)),
             snd (handle acquire w),
             [Ev acquire (fst (handle acquire w))]))
  /\ (forall a,
        ParseAddr specificIP = inr a ->
        Forall (fun q => containing a q = false) (Network.Prefixes parent) ->
        r = (inl (fmt_Errorf "specific ip not contained in any of the defined prefixes" []),
             w, [])).
Proof.
  cbv zeta.
  pose proof (AllocateSpecificIP_shape parent specificIP w) as Hshape. cbv zeta in Hshape.
  split; [| split; [| split; [| split; [| split]]]].
  - destruct Hshape as [(-> & _) | (a & prefix & _ & _ & -> & _)]; simpl; lia.
  - intros e Hin.
    destruct Hshape as [(Hnil & _) | (a & prefix & Hparse & Hfind & Htr & _)].
    + rewrite Hnil in Hin. destruct Hin.
    + rewrite Htr in Hin. destruct Hin as [<- | []].
      destruct (find_containing_first _ _ Hfind) as (Hc & before & after & Hsplit & Hbefore).
      exists a, prefix, (fst (handle (ipam_AcquireIP
                                         {| PrefixCidr := prefix; Ip := Some specificIP |}) w)).
      split; [reflexivity |]. split; [exact Hparse |].
      split; [rewrite Hsplit; apply in_or_app; right; now left |].
      split; [exact Hc |].
      split; [apply in_family_of; now apply containing_in_family |].
      split; [exact Hfind |].
      exists before, after. now split.
  - intros perr Hparse. unfold AllocateSpecificIP. now rewrite Hparse.
  - intros ip prefix Hres.
    destruct Hshape as [(_ & _ & err & Herr) | (a & prefix0 & _ & _ & Htr & _ & Hans)].
    + rewrite Herr in Hres. discriminate.
    + rewrite Hans in Hres. apply specific_answer_success in Hres.
      destruct Hres as [Hresp ->]. now rewrite Htr, Hresp.
  - intros a before first after Hparse Hsplit Hbefore Hfirst.
    rewrite (run_AllocateSpecificIP parent specificIP w Hparse).
    assert (Hfind : find (containing a) (Network.Prefixes parent) = Some first).
    { rewrite Hsplit. clear Hsplit.
      induction Hbefore as [| q before Hq _ IH]; simpl.
      - now rewrite Hfirst.
      - now rewrite Hq. }
    rewrite Hfind. cbv zeta.
    now destruct (handle (ipam_AcquireIP {| PrefixCidr := first; Ip := Some specificIP |}) w).
  - intros a Hparse Hnone.
    rewrite (run_AllocateSpecificIP parent specificIP w Hparse).
    assert (Hfind : find (containing a) (Network.Prefixes parent) = None).
    { apply find_containing_none. now apply Forall_forall. }
    now rewrite Hfind.
Qed.

(** The calls of the random loop are acquires of any free address, one per
    prefix of the list it runs over, in the order of the list. *)
Lemma AllocateRandomIP_loop_calls (prefixes : list Prefix) (w : World) :
  exists tried rest,
    prefixes = (tried ++ rest)%list
    /\ map random_acquire_of (trace_of (run (AllocateRandomIP_loop prefixes) w))
       = map Some tried.
Proof.
  destruct (run_AllocateRandomIP_loop prefixes w) as (tried & tr0 & _ & Hmap & Hcases).
  destruct Hcases as [(-> & -> & _) | [(q & rest & ip & -> & -> & _)
                                      | (q & rest & err & -> & -> & _)]].
  - exists tried, []. now rewrite app_nil_r.
  - exists (tried ++ [q])%list, rest. rewrite <- app_assoc. split; [reflexivity |].
    now rewrite !map_app, Hmap.
  - exists (tried ++ [q])%list, rest. rewrite <- app_assoc. split; [reflexivity |].
    now rewrite !map_app, Hmap.
Qed.

(** AllocateRandomIP asks the ipam at most once per prefix of the network,
    each time for any free address of a prefix that OfFamily has selected
    from the network for the family, in the order the network lists them. *)
Theorem AllocateRandomIP_asks_each_prefix_once (parent : Network.t)
  (af : option AddressFamily) (w : World) :
  let family := AllocateRandomIP_addressfamily parent af in
  let r := run (AllocateRandomIP parent af) w in
  (List.length (trace_of r) <= List.length (Network.Prefixes parent))%nat
  /\ exists tried rest,
       OfFamily (Network.Prefixes parent) family = (tried ++ rest)%list
       /\ map random_acquire_of (trace_of r) = map Some tried
       /\ Forall (fun prefix => In prefix (Network.Prefixes parent)
                                /\ in_family family prefix = true) tried.
Proof.
  cbv zeta. unfold AllocateRandomIP. cbv zeta.
  set (family := AllocateRandomIP_addressfamily parent af).
  destruct (AllocateRandomIP_loop_calls (OfFamily (Network.Prefixes parent) family) w)
    as (tried & rest & Hsplit & Hmap).
  assert (Hlen : List.length (trace_of (run (AllocateRandomIP_loop
                   (OfFamily (Network.Prefixes parent) family)) w))
                 = List.length tried).
  { rewrite <- (length_map random_acquire_of), Hmap. apply length_map. }
  split.
  - rewrite Hlen.
    assert (Hle : (List.length (OfFamily (Network.Prefixes parent) family)
                   <= List.length (Network.Prefixes parent))%nat)
      by apply filter_length_le.
    rewrite Hsplit, length_app in Hle. lia.
  - exists tried, rest. split; [exact Hsplit |]. split; [exact Hmap |].
    apply Forall_forall. intros prefix Hin.
    assert (Hof : In prefix (OfFamily (Network.Prefixes parent) family)).
    { rewrite Hsplit. apply in_or_app. now left. }
    unfold OfFamily in Hof. now apply filter_In in Hof.
Qed.

(** When AllocateRandomIP succeeds, the prefix it returns is a prefix of the
    network that OfFamily selects for the family (for IPv4 and IPv6: one that
    parses to that family), the address is the answer of the ipam to the
    last call, made for that prefix, and every call before was answered
    NotFound. *)
Theorem AllocateRandomIP_success (parent : Network.t) (af : option AddressFamily)
  (w : World) (ip : string) (prefix : Prefix) :
  let family := AllocateRandomIP_addressfamily parent af in
  let r := run (AllocateRandomIP parent af) w in
  result_of r = inr (ip, prefix) ->
  In prefix (Network.Prefixes parent)
  /\ in_family family prefix = true
  /\ (family = IPv4AddressFamily \/ family = IPv6AddressFamily ->
      prefix_family prefix = Some family)
  /\ exists tr0,
       trace_of r = (tr0 ++ [Ev (acquire_any prefix) (inr ip)])%list
       /\ Forall (fun e => exhausted e = true) tr0.
Proof.
  cbv zeta. unfold AllocateRandomIP. cbv zeta.
  set (family := AllocateRandomIP_addressfamily parent af).
  intros Hres.
  destruct (run_AllocateRandomIP_loop (OfFamily (Network.Prefixes parent) family) w)
    as (tried & tr0 & Hall & _ & Hcases).
  destruct Hcases as [(_ & _ & Hfail) | [(q & rest & ip0 & Hsplit & Htr & Hok)
                                        | (q & rest & err & _ & _ & _ & Hfail)]];
    try (rewrite Hfail in Hres; discriminate).
  rewrite Hok in Hres. injection Hres as -> ->.
  assert (Hof : In prefix (OfFamily (Network.Prefixes parent) family)).
  { rewrite Hsplit. apply in_or_app. right. now left. }
  unfold OfFamily in Hof. apply filter_In in Hof. destruct Hof as [Hin Hfam].
  split; [exact Hin |]. split; [exact Hfam |]. split.
  - intros [Hv | Hv]; rewrite Hv in Hfam |- *;
      [now apply in_family_IPv4 | now apply in_family_IPv6].
  - now exists tr0.
Qed.

(** ** Create, from the acquisition on *)

Lemma Create_allocation_success (req : IPServiceCreateRequest.t) (nw : Network.t)
  (af : AddressFamily) (w : World) (alloc : string * string) :
  let r := run (Create_allocation req nw af) w in
  result_of r = inr alloc ->
  exists tr0 rq,
    trace_of r = (tr0 ++ [Ev (ipam_AcquireIP rq) (inr (fst alloc))])%list
    /\ PrefixCidr rq = snd alloc
    /\ Ip rq = IPServiceCreateRequest.Ip req
    /\ In (snd alloc) (Network.Prefixes nw)
    /\ Forall (fun e => is_acquire e = true /\ acquired e = false) tr0.
Proof.
  cbv zeta. unfold Create_allocation. destruct alloc as [ip prefix]. simpl fst; simpl snd.
  destruct (IPServiceCreateRequest.Ip req) as [specificIP |].
  - intros Hres.
    pose proof (AllocateSpecificIP_shape nw specificIP w) as Hshape. cbv zeta in Hshape.
    destruct Hshape as [(_ & _ & err & Herr) | (a & prefix0 & _ & Hfind & Htr & _ & Hans)].
    + rewrite Herr in Hres. discriminate.
    + rewrite Hans in Hres. apply specific_answer_success in Hres.
      destruct Hres as [Hresp ->]. rewrite Hresp in Htr.
      exists [], {| PrefixCidr := prefix0; Ip := Some specificIP |}.
      apply find_some in Hfind. now repeat split.
  - intros Hres. unfold AllocateRandomIP in *. cbv zeta in *.
    set (family := AllocateRandomIP_addressfamily nw (Some af)) in *.
    destruct (run_AllocateRandomIP_loop (OfFamily (Network.Prefixes nw) family) w)
      as (tried & tr0 & Hall & _ & Hcases).
    destruct Hcases as [(_ & _ & Hfail) | [(q & rest & ip0 & Hsplit & Htr & Hok)
                                          | (q & rest & err & _ & _ & _ & Hfail)]];
      try (rewrite Hfail in Hres; discriminate).
    rewrite Hok in Hres. injection Hres as -> ->.
    exists tr0, {| PrefixCidr := prefix; Ip := None |}.
    split; [exact Htr |]. split; [reflexivity |]. split; [reflexivity |]. split.
    + assert (Hof : In prefix (OfFamily (Network.Prefixes nw) family)).
      { rewrite Hsplit. apply in_or_app. right. now left. }
      unfold OfFamily in Hof. now apply filter_In in Hof.
    + eapply Forall_impl; [| exact Hall]. intros e He. now apply exhausted_is_acquire.
Qed.

(** The wire type of the record Create builds: Static if the request says
    so, Ephemeral otherwise. *)
Lemma Create_ipType_wire (req : IPServiceCreateRequest.t) (ipType : IPType) :
  Create_ipType req = inr ipType ->
  (ipType = Ephemeral \/ ipType = Static)
  /\ (IPServiceCreateRequest.Type_ req = Some apiv2.IP_TYPE_STATIC <-> ipType = Static).
Proof.
  unfold Create_ipType.
  destruct (IPServiceCreateRequest.Type_ req) as [[| | | n] |]; try discriminate;
    intros [= <-]; (split; [auto |]); split; discriminate || reflexivity.
Qed.

(** Every run of Create either fails without a write to the datastore, or
    ends with the one write it makes, a Create whose answer is the result of
    the run.  The record of that write has as address the answer of the ipam
    to the last acquire, the one that succeeded, and as parent prefix the
    prefix that acquire was made for, a prefix of the resolved network; its
    network and project are the resolved ones, its uuid is the generator's,
    and its type is Static if the request says so and Ephemeral otherwise, so
    that ConvertToProto never renders it as Unspecified.  The calls are, in
    this order: the two lookups, the acquires, the uuid, the write. *)
Theorem Create_persists_the_acquisition (req : IPServiceCreateRequest.t) (w : World) :
  let r := run (Create req) w in
  (Forall (fun e => is_ds_write e = false) (trace_of r) /\ exists err, result_of r = inl err)
  \/ (exists p nw tr0 rq uuid ip resp,
         trace_of r =
           (Ev (Project_Get (IPServiceCreateRequest.Project req)) (inr p)
            :: Ev (Network_Get (IPServiceCreateRequest.Project req)
                               (IPServiceCreateRequest.Network req)) (inr nw)
            :: tr0
            ++ [Ev (ipam_AcquireIP rq) (inr (IP.IPAddress ip));
                Ev uuid_NewV7 (inr uuid);
                Ev (ds_IP_Create ip) resp])%list
         /\ result_of r = resp
         /\ Forall (fun e => is_acquire e = true /\ acquired e = false) tr0
         /\ Ip rq = IPServiceCreateRequest.Ip req
         /\ PrefixCidr rq = IP.ParentPrefixCidr ip
         /\ In (IP.ParentPrefixCidr ip) (Network.Prefixes nw)
         /\ Create_foreign_network p nw = false
         /\ IP.NetworkID ip = Network.ID nw
         /\ IP.ProjectID ip = Project.Meta_Id p
         /\ IP.AllocationUUID ip = uuid
         /\ ApiIP.Type_ (ConvertToProto_ip ip)
            = match IPServiceCreateRequest.Type_ req with
              | Some apiv2.IP_TYPE_STATIC => apiv2.IP_TYPE_STATIC
              | _ => apiv2.IP_TYPE_EPHEMERAL
              end).
Proof.
  cbv zeta. rewrite run_Create. cbv zeta.
  destruct (handle (Project_Get (IPServiceCreateRequest.Project req)) w) as [pr w1].
  destruct pr as [err | p];
    [left; split; [now repeat constructor | now eexists] |].
  destruct (handle (Network_Get (IPServiceCreateRequest.Project req)
                      (IPServiceCreateRequest.Network req)) w1) as [nr w2].
  destruct nr as [err | nw];
    [left; split; [now repeat constructor | now eexists] |].
  destruct (Create_af req nw) as [err | af];
    [left; split; [now repeat constructor | now eexists] |].
  destruct (Create_foreign_network p nw) eqn:Hforeign;
    [left; split; [now repeat constructor | now eexists] |].
  pose proof (Create_allocation_trace req nw af w2) as Htrace. cbv zeta in Htrace.
  pose proof (Create_allocation_success req nw af w2) as Hsuccess. cbv zeta in Hsuccess.
  destruct (run (Create_allocation req nw af) w2) as [[ar w3] tr].
  unfold result_of, trace_of in Htrace, Hsuccess. simpl in Htrace, Hsuccess.
  destruct Htrace as [Hacq _].
  assert (Hquiet : Forall (fun e => is_ds_write e = false) tr).
  { eapply Forall_impl; [| exact Hacq]. intros e He. now apply acquire_is_no_write. }
  destruct ar as [err | alloc];
    [left; split; [now repeat constructor | now eexists] |].
  destruct (Create_ipType req) as [err | ipType] eqn:Htype;
    [left; split; [now repeat constructor | now eexists] |].
  destruct (handle uuid_NewV7 w3) as [ur w4].
  destruct ur as [err | uuid].
  { left. unfold trace_of, result_of; simpl. split; [| now eexists].
    repeat constructor. apply Forall_app. split; [exact Hquiet | now repeat constructor]. }
  destruct (handle (ds_IP_Create (Create_ip req p nw (fst alloc) (snd alloc) ipType uuid)) w4)
    as [cr w5].
  right.
  destruct (Hsuccess alloc eq_refl) as (tr0 & rq & -> & Hprefix & Hip & Hin & Hall).
  exists p, nw, tr0, rq, uuid,
    (Create_ip req p nw (fst alloc) (snd alloc) ipType uuid), cr.
  unfold trace_of, result_of; simpl.
  split; [now rewrite <- app_assoc |].
  repeat split; try assumption.
  apply Create_ipType_wire in Htype. destruct Htype as [Hkind Hstatic].
  destruct (IPServiceCreateRequest.Type_ req) as [[| | | n] |];
    destruct Hkind as [-> | ->]; try reflexivity;
    solve [ exfalso; destruct Hstatic as [H1 H2]; (discriminate (H1 eq_refl))
          | exfalso; destruct Hstatic as [H1 H2]; (discriminate (H2 eq_refl)) ].
Qed.

(** Create never releases an address and never updates or deletes a record:
    whatever goes wrong after the acquisition (the type, the uuid, the
    datastore), the address it has acquired stays acquired. *)
Theorem Create_never_releases (req : IPServiceCreateRequest.t) (w : World) :
  let r := run (Create req) w in
  Forall (fun e => is_release e = false) (trace_of r)
  /\ Forall (fun e => match e with
                      | Ev (ds_IP_Update _ _) _ => False
                      | Ev (ds_IP_Delete _) _ => False
                      | _ => True
                      end) (trace_of r).
Proof.
  cbv zeta.
  assert (Hmain : Forall (fun e => is_release e = false
                         /\ match e with
                            | Ev (ds_IP_Update _ _) _ => False
                            | Ev (ds_IP_Delete _) _ => False
                            | _ => True
                            end) (trace_of (run (Create req) w))).
  { rewrite run_Create. cbv zeta.
    destruct (handle (Project_Get (IPServiceCreateRequest.Project req)) w) as [pr w1].
    destruct pr as [err | p]; [now repeat constructor |].
    destruct (handle (Network_Get (IPServiceCreateRequest.Project req)
                        (IPServiceCreateRequest.Network req)) w1) as [nr w2].
    destruct nr as [err | nw]; [now repeat constructor |].
    destruct (Create_af req nw) as [err | af]; [now repeat constructor |].
    destruct (Create_foreign_network p nw); [now repeat constructor |].
    pose proof (Create_allocation_trace req nw af w2) as Htrace. cbv zeta in Htrace.
    destruct (run (Create_allocation req nw af) w2) as [[ar w3] tr].
    unfold result_of, trace_of in Htrace. simpl in Htrace. destruct Htrace as [Hacq _].
    assert (Hquiet : Forall (fun e => is_release e = false
                             /\ match e with
                                | Ev (ds_IP_Update _ _) _ => False
                                | Ev (ds_IP_Delete _) _ => False
                                | _ => True
                                end) tr).
    { eapply Forall_impl; [| exact Hacq]. intros [X c x].
      destruct c; simpl; try discriminate. now split. }
    destruct ar as [err | alloc]; [unfold trace_of; simpl; now repeat constructor |].
    destruct (Create_ipType req) as [err | ipType];
      [unfold trace_of; simpl; now repeat constructor |].
    destruct (handle uuid_NewV7 w3) as [ur w4].
    destruct ur as [err | uuid].
    { unfold trace_of; simpl. repeat constructor.
      apply Forall_app. split; [exact Hquiet | now repeat constructor]. }
    destruct (handle (ds_IP_Create (Create_ip req p nw (fst alloc) (snd alloc) ipType uuid)) w4)
      as [cr w5].
    unfold trace_of; simpl. repeat constructor.
    apply Forall_app. split; [exact Hquiet | now repeat constructor]. }
  split.
  - eapply Forall_impl; [| exact Hmain]. now intros e [He _].
  - eapply Forall_impl; [| exact Hmain]. now intros e [_ He].
Qed.

(** ** Delete *)

(** Every run of Delete has one of three shapes.  It stops after the
    datastore's Get, with an error, when the record does not load or is not
    of the scope's project.  Or it loads a record of the scope's project and
    asks the ipam to release that record's address from that record's parent
    prefix (the stored ones, not those of its argument, of which only the id
    is used), and stops there with the error of the release.  Or it goes on
    to the datastore's Delete of that record, and returns the record if the
    datastore has no error and the datastore's error otherwise.  So a
    release always comes before the deletion, and nothing is acquired,
    created or updated. *)
Theorem Delete_is_scoped_and_ordered (scope : ProjectScope) (ip : IP.t) (w : World) :
  let r := run (Delete scope ip) w in
  let get := ds_IP_Get (GetID ip) in
  let release rec := ipam_ReleaseIP {| Release_Ip := IP.IPAddress rec;
                                       Release_PrefixCidr := IP.ParentPrefixCidr rec |} in
  (exists gr err, trace_of r = [Ev get gr] /\ result_of r = inl err)
  \/ (exists rec err,
         IP.ProjectID rec = scope
         /\ trace_of r = [Ev get (inr rec); Ev (release rec) (Some err)]
         /\ result_of r = inl err)
  \/ (exists rec rr dr,
         IP.ProjectID rec = scope
         /\ trace_of r = [Ev get (inr rec); Ev (release rec) rr; Ev (ds_IP_Delete rec) dr]
         /\ result_of r = match dr with Some err => inl err | None => inr rec end).
Proof.
  cbv zeta. rewrite run_Delete. cbv zeta.
  destruct (handle (ds_IP_Get (GetID ip)) w) as [gr w1].
  destruct gr as [err | rec]; [left; now exists (inl err), err |].
  destruct (String.eqb scope (IP.ProjectID rec)) eqn:Hscope; simpl negb; cbv iota.
  2: { left. now eexists (inr rec), _. }
  apply String.eqb_eq in Hscope. symmetry in Hscope.
  destruct (handle (ipam_ReleaseIP {| Release_Ip := IP.IPAddress rec;
                                      Release_PrefixCidr := IP.ParentPrefixCidr rec |}) w1)
    as [rr w2].
  destruct (Delete_release_error rr) as [err |] eqn:Hrel.
  - right; left. exists rec, err.
    assert (rr = Some err) as ->.
    { unfold Delete_release_error in Hrel. destruct rr as [e |]; [| discriminate].
      destruct (errors_As_connect e) as [code |]; [| discriminate].
      destruct (Code_eq_dec code CodeNotFound); [discriminate | congruence]. }
    now repeat split.
  - right; right.
    destruct (handle (ds_IP_Delete rec) w2) as [dr w3].
    exists rec, rr, dr. now repeat split.
Qed.

(** ** Update *)

(** Every run of Update stops after the datastore's Get, with an error and
    without a write, or loads a record of the scope's project and makes one
    write, the datastore's Update of that record to the record built from it
    and the request; the result is the new record if the datastore has no
    error, and the datastore's error otherwise.  The ipam is never called. *)
Theorem Update_is_scoped (scope : ProjectScope) (rq : IPServiceUpdateRequest.t)
  (w : World) :
  let r := run (Update scope rq) w in
  let get := ds_IP_Get (IPServiceUpdateRequest.Ip rq) in
  (exists gr err, trace_of r = [Ev get gr] /\ result_of r = inl err)
  \/ (exists old new ur,
         IP.ProjectID old = scope
         /\ IP.ProjectID new = scope
         /\ Update_new rq old = inr new
         /\ trace_of r = [Ev get (inr old); Ev (ds_IP_Update new old) ur]
         /\ result_of r = match ur with Some err => inl err | None => inr new end).
Proof.
  cbv zeta. rewrite run_Update. cbv zeta.
  destruct (handle (ds_IP_Get (IPServiceUpdateRequest.Ip rq)) w) as [gr w1].
  destruct gr as [err | old]; [left; now exists (inl err), err |].
  destruct (String.eqb scope (IP.ProjectID old)) eqn:Hscope; simpl negb; cbv iota.
  2: { left. now eexists (inr old), _. }
  apply String.eqb_eq in Hscope. symmetry in Hscope.
  destruct (Update_new rq old) as [err | new] eqn:Hnew;
    [left; now exists (inr old), err |].
  destruct (handle (ds_IP_Update new old) w1) as [ur w2].
  right. exists old, new, ur.
  pose proof (Update_new_identity rq old Hnew) as (_ & _ & _ & Hproject & _).
  repeat split; congruence.
Qed.

(** An Update whose request carries the type Unspecified makes no write: it
    stops after the datastore's Get, and if the record has loaded and is of
    the scope's project the error has code InvalidArgument. *)
Theorem Update_unspecified_type_refused (scope : ProjectScope)
  (rq : IPServiceUpdateRequest.t) (w : World) :
  IPServiceUpdateRequest.Type_ rq = Some apiv2.IP_TYPE_UNSPECIFIED ->
  let r := run (Update scope rq) w in
  let get := ds_IP_Get (IPServiceUpdateRequest.Ip rq) in
  exists gr err,
    trace_of r = [Ev get gr]
    /\ result_of r = inl err
    /\ (forall old, gr = inr old -> IP.ProjectID old = scope ->
          has_code CodeInvalidArgument err).
Proof.
  intros Htype. cbv zeta. rewrite run_Update. cbv zeta.
  destruct (handle (ds_IP_Get (IPServiceUpdateRequest.Ip rq)) w) as [gr w1].
  destruct gr as [err | old].
  - exists (inl err), err. repeat split. discriminate.
  - assert (Hnew : Update_new rq old =
                   inl (connect_NewError CodeInvalidArgument
                          (fmt_Errorf "ip type cannot be unspecified: %s"
                             ["IP_TYPE_UNSPECIFIED"]))).
    { unfold Update_new. rewrite Htype.
      destruct (IPServiceUpdateRequest.Description rq), (IPServiceUpdateRequest.Name rq);
        reflexivity. }
    rewrite Hnew.
    destruct (String.eqb scope (IP.ProjectID old)) eqn:Hscope; simpl negb; cbv iota.
    + eexists (inr old), _. repeat split.
    + eexists (inr old), _. repeat split.
      intros old' [= <-] Hproject. apply String.eqb_neq in Hscope. congruence.
Qed.

(** Applying the same request to the record it has produced changes nothing:
    the record Update builds is a fixed point of the request. *)
Theorem Update_new_idempotent (rq : IPServiceUpdateRequest.t) (old new : IP.t) :
  Update_new rq old = inr new -> Update_new rq new = inr new.
Proof.
  unfold Update_new.
  destruct (IPServiceUpdateRequest.Description rq), (IPServiceUpdateRequest.Name rq),
    (IPServiceUpdateRequest.Type_ rq) as [ty |];
    try (destruct (Update_type ty); [discriminate |]);
    intros [= <-]; reflexivity.
Qed.

(** Update, then ConvertToProto: the wire record of the record Update builds
    has the address, uuid, network and project of the old record; the
    description and the name of the request where it sets them; the tags of
    the request; and as type the type of the request if that is Ephemeral or
    Static.  A number that is no value of the enum passes Update's switch,
    leaves the record with the zero value for its type, and the wire record
    says Unspecified. *)
Theorem Update_then_ConvertToProto (rq : IPServiceUpdateRequest.t) (old new : IP.t) :
  Update_new rq old = inr new ->
  let wire := ConvertToProto_ip new in
  ApiIP.Ip wire = IP.IPAddress old
  /\ ApiIP.Uuid wire = IP.AllocationUUID old
  /\ ApiIP.Network wire = IP.NetworkID old
  /\ ApiIP.Project wire = IP.ProjectID old
  /\ ApiIP.Tags wire = IPServiceUpdateRequest.Tags rq
  /\ (forall d, IPServiceUpdateRequest.Description rq = Some d -> ApiIP.Description wire = d)
  /\ (forall n, IPServiceUpdateRequest.Name rq = Some n -> ApiIP.Name wire = n)
  /\ (forall ty, IPServiceUpdateRequest.Type_ rq = Some ty ->
        ApiIP.Type_ wire
        = match ty with
          | apiv2.IP_TYPE_EPHEMERAL => apiv2.IP_TYPE_EPHEMERAL
          | apiv2.IP_TYPE_STATIC => apiv2.IP_TYPE_STATIC
          | _ => apiv2.IP_TYPE_UNSPECIFIED
          end)
  /\ (IPServiceUpdateRequest.Type_ rq = None ->
        ApiIP.Type_ wire = ApiIP.Type_ (ConvertToProto_ip old)).
Proof.
  unfold Update_new.
  destruct (IPServiceUpdateRequest.Description rq), (IPServiceUpdateRequest.Name rq),
    (IPServiceUpdateRequest.Type_ rq) as [[| | | n] |];
    try discriminate; intros [= <-]; cbv zeta;
    repeat split; try (intros ? [= <-]; reflexivity); try discriminate; reflexivity.
Qed.

(** ** The admin List, its calls *)

(** The admin List makes one call, the datastore's List with the filter
    fields of the request as they are, and returns an error of the datastore
    as it is.  Its result has at most as many records as the datastore's
    answer, and exactly the converted answer when no record of the answer
    carries the machine tag. *)
Theorem admin_List_reads_once (req : IPServiceListRequest.t) (w : World) :
  let r := run (admin_List req) w in
  let answer := fst (handle (ds_IP_List req) w) in
  trace_of r = [Ev (ds_IP_List req) answer]
  /\ world_of r = snd (handle (ds_IP_List req) w)
  /\ match answer with
     | inl err => result_of r = inl err
     | inr records =>
         exists ips,
           result_of r = inr ips
           /\ (List.length ips <= List.length records)%nat
           /\ (forallb (fun ip => negb (has_machine_tag (IP.Tags ip))) records = true ->
               ips = map ConvertToProto_ip records)
     end.
Proof.
  cbv zeta. unfold admin_List, List. rewrite ListRequest_copy.
  rewrite !run_bind_or_return, run_Do_Ret.
  destruct (handle (ds_IP_List req) w) as [lr w1]. simpl fst; simpl snd.
  destruct lr as [err | records]; [now repeat split |].
  rewrite !run_Ret. unfold trace_of, world_of, result_of; simpl.
  repeat split. rewrite admin_List_loop_filter. simpl.
  eexists. split; [reflexivity |]. split.
  - rewrite length_map. apply filter_length_le.
  - intros Hall. f_equal.
    induction records as [| rec rest IH]; [reflexivity |].
    simpl in Hall |- *. apply andb_prop in Hall. destruct Hall as [-> Hrest].
    now rewrite IH.
Qed.

(** ** What Create asks the ipam for *)

(** The request of an acquire. *)
Definition acquire_of (e : event) : option AcquireIPRequest :=
  match e with
  | Ev (ipam_AcquireIP rq) _ => Some rq
  | _ => None
  end.

Lemma random_acquire_of_request (e : event) (prefix : Prefix) (rq : AcquireIPRequest) :
  random_acquire_of e = Some prefix -> acquire_of e = Some rq ->
  rq = {| PrefixCidr := prefix; Ip := None |}.
Proof.
  destruct e as [X c x]. destruct c; simpl; try discriminate.
  destruct rq0 as [q [ip |]]; [discriminate |].
  now intros [= <-] [= <-].
Qed.

(** The acquires of Create's allocation ask for the address of the request
    (any address, when it names none), on a prefix of the network; those for
    any address, on a prefix that OfFamily selects for the family. *)
Lemma Create_allocation_requests (req : IPServiceCreateRequest.t) (nw : Network.t)
  (af : AddressFamily) (w : World) (e : event) (rq : AcquireIPRequest) :
  In e (trace_of (run (Create_allocation req nw af) w)) ->
  acquire_of e = Some rq ->
  Ip rq = IPServiceCreateRequest.Ip req
  /\ In (PrefixCidr rq) (Network.Prefixes nw)
  /\ (IPServiceCreateRequest.Ip req = None -> in_family af (PrefixCidr rq) = true).
Proof.
  unfold Create_allocation.
  destruct (IPServiceCreateRequest.Ip req) as [specificIP |].
  - intros Hin Hacq.
    pose proof (AllocateSpecificIP_shape nw specificIP w) as Hshape. cbv zeta in Hshape.
    destruct Hshape as [(Hnil & _) | (a & prefix & _ & Hfind & Htr & _)].
    + rewrite Hnil in Hin. destruct Hin.
    + rewrite Htr in Hin. destruct Hin as [<- | []].
      simpl in Hacq. injection Hacq as <-. simpl.
      apply find_some in Hfind. repeat split; [apply Hfind | discriminate].
  - intros Hin Hacq. unfold AllocateRandomIP in Hin. cbv zeta in Hin.
    simpl AllocateRandomIP_addressfamily in Hin.
    destruct (AllocateRandomIP_loop_calls (OfFamily (Network.Prefixes nw) af) w)
      as (tried & rest & Hsplit & Hmap).
    apply (in_map random_acquire_of) in Hin. rewrite Hmap in Hin.
    apply in_map_iff in Hin. destruct Hin as (prefix & Hprefix & Htried).
    symmetry in Hprefix.
    rewrite (random_acquire_of_request e Hprefix Hacq). simpl.
    assert (Hof : In prefix (OfFamily (Network.Prefixes nw) af)).
    { rewrite Hsplit. apply in_or_app. now left. }
    unfold OfFamily in Hof. apply filter_In in Hof. destruct Hof as [Hnw Hfam].
    now repeat split.
Qed.

(** Create turns to the ipam only for a request that has passed its checks:
    whenever a run contains an acquire, project and network have resolved,
    the family has been accepted and the network is not foreign to the
    project; the acquire asks for the address the request names (for any
    address, if it names none), on a prefix of the resolved network; and if
    the request names the family V4 or V6, on a prefix that parses to that
    family. *)
Theorem Create_acquires_after_checks (req : IPServiceCreateRequest.t) (w : World)
  (e : event) (rq : AcquireIPRequest) :
  In e (trace_of (run (Create req) w)) ->
  acquire_of e = Some rq ->
  exists p nw af tr,
    trace_of (run (Create req) w)
    = Ev (Project_Get (IPServiceCreateRequest.Project req)) (inr p)
      :: Ev (Network_Get (IPServiceCreateRequest.Project req)
                         (IPServiceCreateRequest.Network req)) (inr nw)
      :: tr
    /\ Create_af req nw = inr af
    /\ Create_foreign_network p nw = false
    /\ Ip rq = IPServiceCreateRequest.Ip req
    /\ In (PrefixCidr rq) (Network.Prefixes nw)
    /\ (IPServiceCreateRequest.AddressFamily req = Some apiv2.IP_ADDRESS_FAMILY_V4 ->
        prefix_family (PrefixCidr rq) = Some IPv4AddressFamily)
    /\ (IPServiceCreateRequest.AddressFamily req = Some apiv2.IP_ADDRESS_FAMILY_V6 ->
        prefix_family (PrefixCidr rq) = Some IPv6AddressFamily).
Proof.
  rewrite run_Create. cbv zeta.
  destruct (handle (Project_Get (IPServiceCreateRequest.Project req)) w) as [pr w1].
  destruct pr as [err | p];
    [unfold trace_of; simpl; intros [<- | []]; discriminate |].
  destruct (handle (Network_Get (IPServiceCreateRequest.Project req)
                      (IPServiceCreateRequest.Network req)) w1) as [nr w2].
  destruct nr as [err | nw];
    [unfold trace_of; simpl; intros [<- | [<- | []]]; discriminate |].
  destruct (Create_af req nw) as [err | af] eqn:Haf;
    [unfold trace_of; simpl; intros [<- | [<- | []]]; discriminate |].
  destruct (Create_foreign_network p nw) eqn:Hforeign;
    [unfold trace_of; simpl; intros [<- | [<- | []]]; discriminate |].
  pose proof (Create_allocation_requests req nw af w2 e (rq := rq)) as Hreq.
  destruct (run (Create_allocation req nw af) w2) as [[ar w3] tr].
  unfold trace_of in Hreq. simpl in Hreq.
  assert (Hgoal : forall tail : list event,
             Forall (fun e => acquire_of e = None) tail ->
             In e (Ev (Project_Get (IPServiceCreateRequest.Project req)) (inr p)
                   :: Ev (Network_Get (IPServiceCreateRequest.Project req)
                            (IPServiceCreateRequest.Network req)) (inr nw)
                   :: (tr ++ tail)%list) ->
             acquire_of e = Some rq ->
             Ip rq = IPServiceCreateRequest.Ip req
             /\ In (PrefixCidr rq) (Network.Prefixes nw)
             /\ (IPServiceCreateRequest.AddressFamily req = Some apiv2.IP_ADDRESS_FAMILY_V4 ->
                 prefix_family (PrefixCidr rq) = Some IPv4AddressFamily)
             /\ (IPServiceCreateRequest.AddressFamily req = Some apiv2.IP_ADDRESS_FAMILY_V6 ->
                 prefix_family (PrefixCidr rq) = Some IPv6AddressFamily)).
  { intros tail Htail [<- | [<- | Hin]] Hacq; try discriminate.
    apply in_app_or in Hin. destruct Hin as [Hin | Hin].
    2: { rewrite Forall_forall in Htail. rewrite (Htail e Hin) in Hacq. discriminate. }
    destruct (Hreq Hin Hacq) as (Hip & Hnw & Hfam).
    split; [exact Hip |]. split; [exact Hnw |].
    unfold Create_af in Haf.
    split; intros Hf; rewrite Hf in Haf;
      (destruct (ValidateAddressFamily _); [discriminate |]);
      cbv zeta in Haf;
      match type of Haf with
      | context [existsb ?g ?l] => destruct (existsb g l)
      end; simpl in Haf; try discriminate;
      (destruct (IPServiceCreateRequest.Ip req) eqn:Hnone; [discriminate |]);
      injection Haf as <-;
      [apply in_family_IPv4 | apply in_family_IPv6]; now apply Hfam. }
  destruct ar as [err | alloc].
  { unfold trace_of; simpl. intros Hin Hacq.
    exists p, nw, af, tr. split; [reflexivity |]. split; [exact Haf |].
    split; [exact Hforeign |].
    apply (Hgoal []); [constructor | now rewrite app_nil_r | exact Hacq]. }
  destruct (Create_ipType req) as [err | ipType].
  { unfold trace_of; simpl. intros Hin Hacq.
    exists p, nw, af, tr. split; [reflexivity |]. split; [exact Haf |].
    split; [exact Hforeign |].
    apply (Hgoal []); [constructor | now rewrite app_nil_r | exact Hacq]. }
  destruct (handle uuid_NewV7 w3) as [ur w4].
  destruct ur as [err | uuid].
  { unfold trace_of; simpl. intros Hin Hacq.
    eexists p, nw, af, _. split; [reflexivity |]. split; [exact Haf |].
    split; [exact Hforeign |].
    apply (Hgoal [Ev uuid_NewV7 (inl err)]); [now repeat constructor | exact Hin | exact Hacq]. }
  destruct (handle (ds_IP_Create (Create_ip req p nw (fst alloc) (snd alloc) ipType uuid)) w4)
    as [cr w5].
  unfold trace_of; simpl. intros Hin Hacq.
  eexists p, nw, af, _. split; [reflexivity |]. split; [exact Haf |].
  split; [exact Hforeign |].
  eapply Hgoal; [| exact Hin | exact Hacq]. now repeat constructor.
Qed.

End Further.

(** * The further properties at work *)

Section FurtherScenarios.

Import scenario.

#[local] Existing Instance model_Netip.
#[local] Existing Instance model_PrefixesOfFamily.
#[local] Existing Instance model_TagLib.
#[local] Existing Instance model_Validate.
#[local] Existing Instance model_IPEntity.
#[local] Existing Instance model_Backends.

(** The tenant address is stored, but the ipam no longer knows it: it has
    been released behind the repository's back. *)
Definition released_behind : model.world :=
  model.with_allocated [("10.0.0.0/24", "10.0.0.2")] populated.

(** A request for an IPv4 address of n4 is accepted with the family IPv4. *)
Lemma Create_af_accepts_witness :
  ValidateAddressFamily apiv2.IP_ADDRESS_FAMILY_V4 = None
  /\ In IPv4AddressFamily (Network.AddressFamilies n4)
  /\ IPServiceCreateRequest.Ip
       (create "n4" "p1" None (Some apiv2.IP_ADDRESS_FAMILY_V4) None) = None
  /\ IPv4AddressFamily = IPv4AddressFamily.
Proof.
  apply (Create_af_accepts (create "n4" "p1" None (Some apiv2.IP_ADDRESS_FAMILY_V4) None)
           n4 (f := apiv2.IP_ADDRESS_FAMILY_V4)); reflexivity.
Defined.

(** A request for the address 10.0.0.7 of n4 that also names the family. *)
Lemma Create_address_and_family_refused_witness :
  exists err,
    run (Create (create "n4" "p1" (Some "10.0.0.7") (Some apiv2.IP_ADDRESS_FAMILY_V4) None))
      fresh =
      (inl err, fresh,
       [Ev (Project_Get "p1") (inr (Project.mk "p1")); Ev (Network_Get "p1" "n4") (inr n4)])
    /\ has_code CodeInvalidArgument err.
Proof.
  apply Create_address_and_family_refused
    with (w1 := fresh) (f := apiv2.IP_ADDRESS_FAMILY_V4) (ip := "10.0.0.7");
    reflexivity.
Defined.

(** A random IPv4 address of the network with both families. *)
Lemma AllocateRandomIP_success_witness :
  In "10.0.1.0/24" (Network.Prefixes n46)
  /\ in_family IPv4AddressFamily "10.0.1.0/24" = true
  /\ (IPv4AddressFamily = IPv4AddressFamily \/ IPv4AddressFamily = IPv6AddressFamily ->
      prefix_family "10.0.1.0/24" = Some IPv4AddressFamily)
  /\ exists tr0,
       trace_of (run (B := model_Backends) (AllocateRandomIP n46 (Some IPv4AddressFamily)) fresh)
       = (tr0 ++ [Ev (acquire_any "10.0.1.0/24") (inr "10.0.1.1")])%list
       /\ Forall (fun e => exhausted e = true) tr0.
Proof.
  apply (AllocateRandomIP_success (B := model_Backends) n46 (Some IPv4AddressFamily) fresh).
  reflexivity.
Defined.

(** Create for an IPv4 address of the network with both families: its one
    acquire. *)
Lemma Create_acquires_after_checks_witness :
  exists p nw af tr,
    trace_of (run (Create (create "n46" "p1" None (Some apiv2.IP_ADDRESS_FAMILY_V4) None)) fresh)
    = Ev (Project_Get "p1") (inr p) :: Ev (Network_Get "p1" "n46") (inr nw) :: tr
    /\ Create_af (create "n46" "p1" None (Some apiv2.IP_ADDRESS_FAMILY_V4) None) nw = inr af
    /\ Create_foreign_network p nw = false
    /\ Ip {| PrefixCidr := "10.0.1.0/24"; Ip := None |} = None
    /\ In "10.0.1.0/24" (Network.Prefixes nw)
    /\ (Some apiv2.IP_ADDRESS_FAMILY_V4 = Some apiv2.IP_ADDRESS_FAMILY_V4 ->
        prefix_family "10.0.1.0/24" = Some IPv4AddressFamily)
    /\ (Some apiv2.IP_ADDRESS_FAMILY_V4 = Some apiv2.IP_ADDRESS_FAMILY_V6 ->
        prefix_family "10.0.1.0/24" = Some IPv6AddressFamily).
Proof.
  apply Create_acquires_after_checks
    with (e := Ev (acquire_any "10.0.1.0/24") (inr "10.0.1.1")).
  - vm_compute. right. right. left. reflexivity.
  - reflexivity.
Defined.

(** Delete of the tenant address after it has been released behind the
    repository's back: the ipam answers NotFound, and Delete goes on. *)
Lemma Delete_coded_release_error_witness :
  let rel := ipam_ReleaseIP {| Release_Ip := "10.0.0.1"; Release_PrefixCidr := "10.0.0.0/24" |} in
  let err := connect_NewError CodeNotFound (fmt_Errorf "ip %s not found" ["10.0.0.1"]) in
  (CodeNotFound = CodeNotFound ->
   trace_of (run (Delete "p1" tenant_ip) released_behind) =
     [Ev (ds_IP_Get "10.0.0.1") (inr tenant_ip); Ev rel (Some err);
      Ev (ds_IP_Delete tenant_ip) (fst (handle (ds_IP_Delete tenant_ip) released_behind))])
  /\ (CodeNotFound <> CodeNotFound ->
      run (Delete "p1" tenant_ip) released_behind =
        (inl err, released_behind,
         [Ev (ds_IP_Get "10.0.0.1") (inr tenant_ip); Ev rel (Some err)])).
Proof.
  apply Delete_coded_release_error with (w1 := released_behind); reflexivity.
Defined.

(** The same Delete, seen from outside: it succeeds and the record is gone;
    a second Delete finds no record. *)
Example Delete_after_release_behind :
  let r := run (Delete "p1" tenant_ip) released_behind in
  result_of r = inr tenant_ip
  /\ model.stored (world_of r) "10.0.0.1" = None
  /\ result_of (run (Delete "p1" tenant_ip) (world_of r))
     = inl (generic_NotFound "ip %s not found" ["10.0.0.1"]).
Proof. cbv zeta. repeat split; vm_compute; reflexivity. Qed.

(** An Update of the tenant address to the type Unspecified. *)
Lemma Update_unspecified_type_refused_witness :
  let rq := IPServiceUpdateRequest.mk "10.0.0.1" "p1" None None
              (Some apiv2.IP_TYPE_UNSPECIFIED) [] in
  exists gr err,
    trace_of (run (Update "p1" rq) populated) = [Ev (ds_IP_Get "10.0.0.1") gr]
    /\ result_of (run (Update "p1" rq) populated) = inl err
    /\ (forall old, gr = inr old -> IP.ProjectID old = "p1" ->
          has_code CodeInvalidArgument err).
Proof.
  apply (Update_unspecified_type_refused (B := model_Backends) "p1"
           (IPServiceUpdateRequest.mk "10.0.0.1" "p1" None None
              (Some apiv2.IP_TYPE_UNSPECIFIED) []) populated).
  reflexivity.
Defined.

(** An Update of name and type, applied twice. *)
Lemma Update_new_idempotent_witness :
  let rq := IPServiceUpdateRequest.mk "10.0.0.1" "p1" (Some "api") None
              (Some apiv2.IP_TYPE_STATIC) ["color=blue"] in
  Update_new rq (IP.set_Tags ["color=blue"] (IP.set_Type Static (IP.set_Name "api" tenant_ip)))
  = inr (IP.set_Tags ["color=blue"] (IP.set_Type Static (IP.set_Name "api" tenant_ip))).
Proof.
  apply Update_new_idempotent with (old := tenant_ip). reflexivity.
Defined.

(** An Update to a type number that is no value of the enum: the wire record
    of the new record says Unspecified. *)
Lemma Update_then_ConvertToProto_witness :
  let rq := IPServiceUpdateRequest.mk "10.0.0.1" "p1" None None
              (Some (apiv2.IP_TYPE_undefined 7)) [] in
  let wire := ConvertToProto_ip (IP.set_Tags [] (IP.set_Type IPType_zero tenant_ip)) in
  ApiIP.Ip wire = IP.IPAddress tenant_ip
  /\ ApiIP.Uuid wire = IP.AllocationUUID tenant_ip
  /\ ApiIP.Network wire = IP.NetworkID tenant_ip
  /\ ApiIP.Project wire = IP.ProjectID tenant_ip
  /\ ApiIP.Tags wire = IPServiceUpdateRequest.Tags rq
  /\ (forall d, IPServiceUpdateRequest.Description rq = Some d -> ApiIP.Description wire = d)
  /\ (forall n, IPServiceUpdateRequest.Name rq = Some n -> ApiIP.Name wire = n)
  /\ (forall ty, IPServiceUpdateRequest.Type_ rq = Some ty ->
        ApiIP.Type_ wire
        = match ty with
          | apiv2.IP_TYPE_EPHEMERAL => apiv2.IP_TYPE_EPHEMERAL
          | apiv2.IP_TYPE_STATIC => apiv2.IP_TYPE_STATIC
          | _ => apiv2.IP_TYPE_UNSPECIFIED
          end)
  /\ (IPServiceUpdateRequest.Type_ rq = None ->
        ApiIP.Type_ wire = ApiIP.Type_ (ConvertToProto_ip tenant_ip)).
Proof.
  apply Update_then_ConvertToProto with (old := tenant_ip). reflexivity.
Defined.

End FurtherScenarios.
